(** * detection-worker.js: a shallow embedding of the inference worker

    The worker script keeps one global, [session], and reacts to messages of
    the host: INIT loads a model, PROCESS_FRAME converts a frame into a
    planar float32 tensor, runs the session on it and posts the result.

    The development follows the script top-down:
    - [Js]: the few JavaScript values and number operations the script uses
      (IEEE-754 doubles, [Math.fround], [Number.prototype.toFixed]);
    - [Codec]: [preprocessImageData];
    - [Async]: a small monad for [async] functions (exceptions, [await],
      [postMessage], the console, the clock and the global);
    - [Worker]: [initModel], [processFrame] and [onmessage], and the event
      loop that interleaves their suspended continuations. *)

From Stdlib Require Import ZArith Lia.
From Stdlib Require Import Strings.Byte.
From Stdlib Require Import Floats.SpecFloat.
From stdpp Require Import base option list strings pretty gmap.

#[local] Open Scope list_scope.

(** ** JavaScript numbers *)

Module Js.

(** A JavaScript number is an IEEE-754 binary64; a [Float32Array] element
    is a binary32.  Both are [spec_float]s, told apart by the precision
    the operations round to. *)
Definition number := spec_float.

Definition prec64 : Z := 53.
Definition emax64 : Z := 1024.
Definition prec32 : Z := 24.
Definition emax32 : Z := 128.

Definition NaN : number := S754_nan.
Definition zero : number := S754_zero false.

(** The number denoted by an integer literal or an integer array element. *)
Definition of_Z (z : Z) : number := binary_normalize prec64 emax64 z 0 false.

Definition one : number := of_Z 1.

(** [x / y] and [x - y] on numbers. *)
Definition div (x y : number) : number := SFdiv prec64 emax64 x y.
Definition sub (x y : number) : number := SFsub prec64 emax64 x y.

(** Rounding to the nearest binary32, ties to even. *)
Definition round32 (x : number) : spec_float :=
  match x with
  | S754_finite s m e => binary_round prec32 emax32 s m e
  | _ => x
  end.

(** A binary32 read back as a number; the conversion is exact. *)
Definition widen (x : spec_float) : number :=
  match x with
  | S754_finite s m e => binary_round prec64 emax64 s m e
  | _ => x
  end.

(** [Math.fround]: what a number becomes when it is stored into a
    [Float32Array] and read back. *)
Definition fround (x : number) : number := widen (round32 x).


(** An element read from a [Uint8ClampedArray]: a byte, or [undefined]
    past the end.  In arithmetic [undefined] converts to NaN. *)
Definition to_number (v : option byte) : number :=
  match v with
  | Some b => of_Z (Z.of_N (Byte.to_N b))
  | None => NaN
  end.

(** [new Uint8ClampedArray(array)] on an array of integers clamps each
    element to [0, 255]. *)
Definition ToUint8Clamp (z : Z) : byte :=
  default "000"%byte (Byte.of_N (Z.to_N (Z.max 0 (Z.min 255 z)))).

(** The values that travel in message fields and console lines. *)
Inductive value :=
| undefined
| num (x : number)
| str (s : string).

Definition is_number (v : value) : bool :=
  match v with num _ => true | _ => false end.

Definition is_string (v : value) : bool :=
  match v with str _ => true | _ => false end.

(** [case 'label':] of a [switch] on [v]: the comparison is [===], so only
    the string itself matches. *)
Definition is_case (v : value) (label : string) : bool :=
  match v with
  | str s => String.eqb s label
  | _ => false
  end.

(** A thrown [Error]; the script only ever reads its [message]. *)
Record Error := { message : string }.

(** How a call ends: it returns a value or it throws. *)
Inductive completion (A : Type) :=
| Returns (a : A)
| Throws (e : Error).
Arguments Returns {A} a.
Arguments Throws {A} e.

(** What the making of a typed array depends on, from one engine to the
    other: how long the array may be, and the message of the RangeError
    that is thrown when it may not be that long. *)
Record Engine := {
  max_typed_array_length : N;
  invalid_length_message : nat -> string;
}.

(** The RangeError of a typed array that cannot have [n] elements. *)
Definition invalid_length (engine : Engine) (n : nat) : Error :=
  {| message := invalid_length_message engine n |}.

(** A typed array of [n] elements can be made when [n] is within the limit
    of the engine.  The language puts the limit at [2^53 - 1] at most;
    engines have lower ones. *)
Definition allocates (engine : Engine) (n : nat) : bool :=
  (N.of_nat n <=? max_typed_array_length engine)%N.

(** The most a conforming engine may allow, [2^53 - 1]. *)
Definition largest_limit : N := 9007199254740991.

(** [array[0]] used as a property key: [undefined] names the property
    ["undefined"]. *)
Definition first_key (names : list string) : string :=
  default "undefined" (head names).

(** *** [Number.prototype.toFixed(2)] *)

(** The integer [n] for which [n / 100] is closest to [m * 2^e], the
    larger one on a tie. *)
Definition hundredths (m : positive) (e : Z) : Z :=
  if (0 <=? e)%Z then 100 * Z.pos m * 2 ^ e
  else (200 * Z.pos m + 2 ^ (- e)) / 2 ^ (1 - e).

(** [m * 2^e >= 10^21] *)
Definition huge (m : positive) (e : Z) : bool :=
  if (0 <=? e)%Z then (10 ^ 21 <=? Z.pos m * 2 ^ e)%Z
  else (10 ^ 21 * 2 ^ (- e) <=? Z.pos m)%Z.

Definition digit (d : Z) : string := pretty (Z.to_N (d mod 10)).

(** [n] hundredths written with two decimals. *)
Definition fixed2 (n : Z) : string :=
  pretty (Z.to_N (n / 100)) +:+ "." +:+ digit (n / 10) +:+ digit n.

Section ToFixed.
(** [Number::toString], which [toFixed] falls back to from [10^21] on. *)
Variable NumberToString : number -> string.

Definition toFixed2 (x : number) : string :=
  match x with
  | S754_nan => "NaN"
  | S754_infinity false => "Infinity"
  | S754_infinity true => "-Infinity"
  | S754_zero _ => "0.00"
  | S754_finite s m e =>
      (if s then "-" else "") +:+
      (if huge m e then NumberToString (S754_finite false m e)
       else fixed2 (hundredths m e))
  end.
End ToFixed.

End Js.

(** ** Tensor codec: [preprocessImageData] *)

Module Codec.

(** [imageData.data] arrives either as a typed array or, after a
    serialisation that lost the typed array, as a plain array. *)
Inductive PixelSource :=
| PlainArray (elements : list Z)
| Uint8ClampedArray (bytes : list byte).

Record ImageData := {
  data : PixelSource;
  width : nat;
  height : nat;
}.

(** [ort.Tensor]: element type, flat data and dims.  The constructor of
    the library rejects data whose length is not the product of the dims;
    [preprocessImageData] allocates [3 * width * height] floats for dims
    [1, 3, width, height], so that this check always passes. *)
Record Tensor := {
  ttype : string;
  tdata : list Js.number;
  dims : list nat;
}.

(** The bytes of [pixelData]. *)
Definition pixelData_of (d : PixelSource) : list byte :=
  match d with
  | PlainArray elements => map Js.ToUint8Clamp elements
  | Uint8ClampedArray bytes => bytes
  end.

(** [pixelData[j] / 255.0] *)
Definition channel (pixelData : list byte) (j : nat) : Js.number :=
  Js.div (Js.to_number (pixelData !! j)) (Js.of_Z 255).

(** The value a byte ends up as in the tensor. *)
Definition normalized (p : byte) : Js.number :=
  Js.fround (Js.div (Js.to_number (Some p)) (Js.of_Z 255)).


(** One iteration of the [for] loop.  A [Float32Array] ignores a write past
    its end, as the list insert does. *)
Definition loop_body (width height : nat) (pixelData : list byte)
    (float32Data : list Js.number) (i : nat) : list Js.number :=
  let r := channel pixelData (i * 4) in
  let g := channel pixelData (i * 4 + 1) in
  let b := channel pixelData (i * 4 + 2) in
  <[i + 2 * width * height := Js.fround b]>
    (<[i + width * height := Js.fround g]>
       (<[i := Js.fround r]> float32Data)).

(** The number of [i = 0, 1, ...] with [i < length / 4], the division being
    the real one. *)
Definition iterations (length : nat) : nat := (length + 3) / 4.

Definition fill (width height : nat) (pixelData : list byte) (n : nat)
    (float32Data : list Js.number) : list Js.number :=
  foldl (loop_body width height pixelData) float32Data (seq 0 n).

(** [Array.isArray(data) ? new Uint8ClampedArray(data) : data]: a plain
    array is copied into a new typed array, which the engine must be able
    to allocate; a typed array is taken as it is. *)
Definition Uint8ClampedArray_of (engine : Js.Engine) (d : PixelSource)
    : Js.completion (list byte) :=
  match d with
  | PlainArray elements =>
      if Js.allocates engine (length elements)
      then Js.Returns (map Js.ToUint8Clamp elements)
      else Js.Throws (Js.invalid_length engine (length elements))
  | Uint8ClampedArray bytes => Js.Returns bytes
  end.

(** [new Float32Array(n)]: [n] zeros, or a RangeError. *)
Definition Float32Array_new (engine : Js.Engine) (n : nat)
    : Js.completion (list Js.number) :=
  if Js.allocates engine n then Js.Returns (replicate n Js.zero)
  else Js.Throws (Js.invalid_length engine n).

Definition preprocessImageData (engine : Js.Engine) (imageData : ImageData)
    : Js.completion Tensor :=
  let width := width imageData in
  let height := height imageData in
  match Uint8ClampedArray_of engine (data imageData) with
  | Js.Throws e => Js.Throws e
  | Js.Returns pixelData =>
      match Float32Array_new engine (3 * width * height) with
      | Js.Throws e => Js.Throws e
      | Js.Returns float32Data =>
          Js.Returns
            {| ttype := "float32";
               tdata := fill width height pixelData (iterations (length pixelData))
                             float32Data;
               dims := [1; 3; width; height] |}
      end
  end.

(** The tensor [preprocessImageData] returns when its allocations succeed. *)
Definition planar_tensor (imageData : ImageData) : Tensor :=
  let width := width imageData in
  let height := height imageData in
  let pixelData := pixelData_of (data imageData) in
  {| ttype := "float32";
     tdata := fill width height pixelData (iterations (length pixelData))
                   (replicate (3 * width * height) Js.zero);
     dims := [1; 3; width; height] |}.

(** The spatial size the model expects.  The script declares it and never
    reads it. *)
Definition MODEL_INPUT_SIZE : nat := 640.

End Codec.

(** ** The inference engine, as the script sees it *)

Module Ort.
Import Codec.

(** An [ort.InferenceSession].  [handle] tells two sessions apart that
    declare the same names; [backendHint] is [session.handler._backendHint]. *)
Record Session := {
  handle : nat;
  inputNames : list string;
  outputNames : list string;
  backendHint : option string;
}.

Record SessionOptions := {
  executionProviders : list string;
  graphOptimizationLevel : string;
  executionMode : string;
  enableCpuMemArena : bool;
  enableMemPattern : bool;
}.

(** What [fetch] resolves to. *)
Record Response := {
  url : string;
  status : nat;
}.

(** The operations the script awaits, indexed by what they resolve to. *)
Inductive Op : Type -> Type :=
| fetch (resource : string) : Op Response
| arrayBuffer (response : Response) : Op (list byte)
| InferenceSession_create (modelBuffer : list byte) (options : SessionOptions)
    : Op Session
| run (session : Session) (feeds : gmap string Tensor)
    : Op (gmap string Tensor).

(** How a promise settles. *)
Inductive Settled (X : Type) :=
| Fulfilled (x : X)
| Rejected (e : Js.Error).
Arguments Fulfilled {X} x.
Arguments Rejected {X} e.

(** The outside world decides how each operation settles. *)
Record Outcomes := {
  on_fetch : string -> Settled Response;
  on_arrayBuffer : Response -> Settled (list byte);
  on_create : list byte -> SessionOptions -> Settled Session;
  on_run : Session -> gmap string Tensor -> Settled (gmap string Tensor);
}.

Definition settle (o : Outcomes) {X : Type} (op : Op X) : Settled X :=
  match op in Op X return Settled X with
  | fetch resource => on_fetch o resource
  | arrayBuffer response => on_arrayBuffer o response
  | InferenceSession_create modelBuffer options => on_create o modelBuffer options
  | run session feeds => on_run o session feeds
  end.

End Ort.

(** ** Messages between the host and the worker *)

Module Protocol.
Import Codec.

(** [e.data.data] of an inbound message. *)
Inductive Payload :=
| NoData
| InitData (modelPath : string)
| FrameData (imageData : ImageData) (frameId : Js.value) (timestamp : Js.value).

(** [e.data] of an inbound message, as the destructuring reads it: the
    [type] is any value, [undefined] when [e.data] has no such property or
    is a primitive, and so is [data]. *)
Record Inbound := {
  type : Js.value;
  data : Payload;
}.

(** The messages the worker posts.  [frameId] of an ERROR is [None] when
    the posted object has no such property. *)
Inductive Outbound :=
| MODEL_LOADED (inputNames outputNames : list string)
| FRAME_PROCESSED (frameId timestamp : Js.value)
    (output_data : list Js.number) (output_dims : list nat)
    (processingTime : Js.value)
| ERROR (error : string) (frameId : option Js.value).

(** One [self.postMessage] call: the message and the buffers named in its
    transfer list. *)
Record Posted := {
  msg : Outbound;
  transfer : list (list Js.number);
}.

Inductive Level := log | warn | error.

(** One console call.  The pieces of a template literal and the further
    arguments are listed in order; a logged error appears as its message. *)
Record Line := {
  level : Level;
  args : list Js.value;
}.

End Protocol.

(** ** [async] functions *)

Module Async.
Import Ort Protocol.

(** A computation of the worker: what it does next, and how it goes on.
    Only [Await] gives control back to the event loop. *)
Inductive Prog (A : Type) : Type :=
| Ret (a : A)
| Throw (e : Js.Error)
| Now (k : Js.number -> Prog A)
| Console (l : Line) (k : Prog A)
| PostMessage (m : Posted) (k : Prog A)
| GetSession (k : option Session -> Prog A)
| SetSession (s : option Session) (k : Prog A)
| Await {X : Type} (op : Op X) (k : Settled X -> Prog A).
Arguments Ret {A} a.
Arguments Throw {A} e.
Arguments Now {A} k.
Arguments Console {A} l k.
Arguments PostMessage {A} m k.
Arguments GetSession {A} k.
Arguments SetSession {A} s k.
Arguments Await {A X} op k.

Fixpoint bind {A B : Type} (p : Prog A) (f : A -> Prog B) : Prog B :=
  match p with
  | Ret a => f a
  | Throw e => Throw e
  | Now k => Now (fun t => bind (k t) f)
  | Console l k => Console l (bind k f)
  | PostMessage m k => PostMessage m (bind k f)
  | GetSession k => GetSession (fun s => bind (k s) f)
  | SetSession s k => SetSession s (bind k f)
  | Await op k => Await op (fun r => bind (k r) f)
  end.

(** [try { p } catch (error) { handler error }] *)
Fixpoint try_catch {A : Type} (p : Prog A) (handler : Js.Error -> Prog A) : Prog A :=
  match p with
  | Ret a => Ret a
  | Throw e => handler e
  | Now k => Now (fun t => try_catch (k t) handler)
  | Console l k => Console l (try_catch k handler)
  | PostMessage m k => PostMessage m (try_catch k handler)
  | GetSession k => GetSession (fun s => try_catch (k s) handler)
  | SetSession s k => SetSession s (try_catch k handler)
  | Await op k => Await op (fun r => try_catch (k r) handler)
  end.

(** [x ← p; q] and [p;; q] are stdpp's notations for [bind]. *)
#[export] Instance prog_ret : MRet Prog := @Ret.
#[export] Instance prog_bind : MBind Prog := fun A B f p => bind p f.

(** [performance.now()] *)
Definition now : Prog Js.number := Now Ret.

(** [await op]: the value the promise is fulfilled with, or a throw of
    what it is rejected with. *)
Definition await {X : Type} (op : Op X) : Prog X :=
  Await op (fun r => match r with Fulfilled x => Ret x | Rejected e => Throw e end).

Definition console (lv : Level) (a : list Js.value) : Prog unit :=
  Console {| level := lv; args := a |} (Ret tt).

Definition postMessage (m : Outbound) (t : list (list Js.number)) : Prog unit :=
  PostMessage {| msg := m; transfer := t |} (Ret tt).

Definition get_session : Prog (option Session) := GetSession Ret.

Definition set_session (s : Session) : Prog unit := SetSession (Some s) (Ret tt).

End Async.

(** ** The worker script *)

Module Worker.
Import Codec Ort Protocol Async.

(** What the script takes from its realm: the readings of
    [performance.now()], in the order they are taken, [Number::toString],
    and the engine that makes its typed arrays. *)
Record Realm := {
  performance_now : nat -> Js.number;
  NumberToString : Js.number -> string;
  engine : Js.Engine;
}.

(** An [async] call suspended at an [await]. *)
Record Task := {
  awaited : Type;
  op : Op awaited;
  resume : Settled awaited -> Prog unit;
}.

(** The worker between two turns of its event loop: the global
    [session], the suspended calls (a settled one leaves [None] behind, so
    that a task keeps its index), and what the worker has emitted so far. *)
Record State := {
  session : option Session;
  tasks : list (option Task);
  outbox : list Posted;
  console_out : list Line;
  clock_reads : nat;
  unhandled : list Js.Error;
}.

(** [let session = null;] *)
Definition initial : State :=
  {| session := None; tasks := []; outbox := []; console_out := [];
     clock_reads := 0; unhandled := [] |}.

Definition with_session (s : option Session) (w : State) : State :=
  {| session := s; tasks := tasks w; outbox := outbox w;
     console_out := console_out w; clock_reads := clock_reads w;
     unhandled := unhandled w |}.

Definition with_tasks (ts : list (option Task)) (w : State) : State :=
  {| session := session w; tasks := ts; outbox := outbox w;
     console_out := console_out w; clock_reads := clock_reads w;
     unhandled := unhandled w |}.

Definition post (m : Posted) (w : State) : State :=
  {| session := session w; tasks := tasks w; outbox := outbox w ++ [m];
     console_out := console_out w; clock_reads := clock_reads w;
     unhandled := unhandled w |}.

Definition print (l : Line) (w : State) : State :=
  {| session := session w; tasks := tasks w; outbox := outbox w;
     console_out := console_out w ++ [l]; clock_reads := clock_reads w;
     unhandled := unhandled w |}.

Definition tick (w : State) : State :=
  {| session := session w; tasks := tasks w; outbox := outbox w;
     console_out := console_out w; clock_reads := S (clock_reads w);
     unhandled := unhandled w |}.

Definition reject (e : Js.Error) (w : State) : State :=
  {| session := session w; tasks := tasks w; outbox := outbox w;
     console_out := console_out w; clock_reads := clock_reads w;
     unhandled := unhandled w ++ [e] |}.

Definition suspend (t : Task) (w : State) : State :=
  with_tasks (tasks w ++ [Some t]) w.

(** The task a settled one leaves behind. *)
Definition settled (i : nat) (w : State) : State :=
  with_tasks (<[i := None]> (tasks w)) w.

Section Script.
Variable realm : Realm.

(** Runs a computation up to its next [await].  An error that nothing
    catches rejects the promise of the handler, which nobody awaits. *)
Fixpoint exec (p : Prog unit) (w : State) : State :=
  match p with
  | Ret _ => w
  | Throw e => reject e w
  | Now k => exec (k (performance_now realm (clock_reads w))) (tick w)
  | Console l k => exec k (print l w)
  | PostMessage m k => exec k (post m w)
  | GetSession k => exec (k (session w)) w
  | SetSession s k => exec k (with_session s w)
  | Await o k => suspend {| op := o; resume := k |} w
  end.

Definition toFixed2 (x : Js.number) : string :=
  Js.toFixed2 (NumberToString realm) x.

(** A use of the global as an object: [session.inputNames],
    [session.run], ... *)
Definition the_session : Prog Session :=
  s ← get_session;
  match s with
  | Some s => mret s
  | None => Throw {| Js.message := "Cannot read properties of null" |}
  end.

(** [session.handler._backendHint || "unknown"]: the empty string is
    falsy too. *)
Definition provider_of (s : Session) : string :=
  match backendHint s with
  | Some hint => if String.eqb hint "" then "unknown" else hint
  | None => "unknown"
  end.

Definition sessionOptions : SessionOptions :=
  {| executionProviders := ["webgl"; "wasm"];
     graphOptimizationLevel := "all";
     executionMode := "parallel";
     enableCpuMemArena := true;
     enableMemPattern := true |}.

Definition initModel (modelPath : string) : Prog unit :=
  try_catch
    (modelResponse ← await (fetch modelPath);
     modelBuffer ← await (arrayBuffer modelResponse);
     created ← await (InferenceSession_create modelBuffer sessionOptions);
     set_session created;;
     s ← the_session;
     console log [Js.str "[Worker] Model loaded with provider:";
                  Js.str (provider_of s)];;
     s1 ← the_session;
     s2 ← the_session;
     postMessage (MODEL_LOADED (inputNames s1) (outputNames s2)) [])
    (fun error =>
       postMessage (ERROR ("Failed to load model: " +:+ Js.message error) None) []).

(** [const { imageData, frameId, timestamp } = data;] *)
Definition destructure (data : Payload)
    : Prog (option ImageData * Js.value * Js.value) :=
  match data with
  | NoData =>
      Throw {| Js.message := "Cannot destructure property 'imageData' of 'data' as it is undefined." |}
  | InitData _ => mret (None, Js.undefined, Js.undefined)
  | FrameData imageData frameId timestamp => mret (Some imageData, frameId, timestamp)
  end.

(** [preprocessImageData] called on what the destructuring gave. *)
Definition preprocessImageData (imageData : option ImageData) : Prog Tensor :=
  match imageData with
  | Some i =>
      match Codec.preprocessImageData (engine realm) i with
      | Js.Returns inputTensor => mret inputTensor
      | Js.Throws e => Throw e
      end
  | None =>
      Throw {| Js.message := "Cannot destructure property 'data' of 'imageData' as it is undefined." |}
  end.

(** [new Float32Array(outputTensor.data)] *)
Definition Float32Array_from (outputTensor : option Tensor) : Prog (list Js.number) :=
  match outputTensor with
  | Some t => mret (map Js.fround (tdata t))
  | None => Throw {| Js.message := "Cannot read properties of undefined (reading 'data')" |}
  end.

(** [outputTensor.dims], read after [outputTensor.data] was. *)
Definition dims_of (outputTensor : option Tensor) : list nat :=
  from_option dims [] outputTensor.

(** [const feeds = {}; feeds[session.inputNames[0]] = inputTensor;] *)
Definition feeds_for (s : Session) (inputTensor : Tensor) : gmap string Tensor :=
  <[Js.first_key (inputNames s) := inputTensor]> ∅.

Definition processFrame (data : Payload) : Prog unit :=
  guard ← get_session;
  match guard with
  | None => postMessage (ERROR "Model not initialized" None) []
  | Some _ =>
      '(imageData, frameId, timestamp) ← destructure data;
      startTime ← now;
      console log [Js.str "[Worker] Frame "; frameId; Js.str ": Started processing"];;
      try_catch
        (preprocessStart ← now;
         inputTensor ← preprocessImageData imageData;
         preprocessEnd ← now;
         let preprocessTime := toFixed2 (Js.sub preprocessEnd preprocessStart) in
         inferenceStart ← now;
         s ← the_session;
         let feeds := feeds_for s inputTensor in
         runner ← the_session;
         results ← await (run runner feeds);
         inferenceEnd ← now;
         let inferenceTime := toFixed2 (Js.sub inferenceEnd inferenceStart) in
         s' ← the_session;
         let outputName := Js.first_key (outputNames s') in
         let outputTensor := results !! outputName in
         endTime ← now;
         let totalTime := toFixed2 (Js.sub endTime startTime) in
         console log [Js.str "[Worker] Frame "; frameId; Js.str ": COMPLETE - Total: ";
                      Js.str totalTime; Js.str "ms (Preprocess: ";
                      Js.str preprocessTime; Js.str "ms, Inference: ";
                      Js.str inferenceTime; Js.str "ms)"];;
         outputData ← Float32Array_from outputTensor;
         postMessage
           (FRAME_PROCESSED frameId timestamp outputData (dims_of outputTensor)
                            (Js.str totalTime))
           [outputData])
        (fun error =>
           errorEnd ← now;
           let errorTime := toFixed2 (Js.sub errorEnd startTime) in
           console Protocol.error
                   [Js.str "[Worker] Frame "; frameId; Js.str ": ERROR after ";
                    Js.str errorTime; Js.str "ms -"; Js.str (Js.message error)];;
           postMessage
             (ERROR ("Processing failed: " +:+ Js.message error) (Some frameId)) [])
  end.

(** [data.modelPath], and what [fetch] makes of it. *)
Definition modelPath_of (data : Payload) : Prog string :=
  match data with
  | NoData =>
      Throw {| Js.message := "Cannot read properties of undefined (reading 'modelPath')" |}
  | InitData modelPath => mret modelPath
  | FrameData _ _ _ => mret "undefined"
  end.

(** The error of [const { type, data } = e.data] when [e.data] is null or
    undefined. *)
Definition no_message_data : Js.Error :=
  {| Js.message := "Cannot destructure property 'type' of 'e.data' as it is undefined." |}.

(** [self.onmessage], applied to an event whose [data] is [e_data]: [None]
    when it is null or undefined.  The destructuring comes before the
    [try]. *)
Definition onmessage (e_data : option Inbound) : Prog unit :=
  match e_data with
  | None => Throw no_message_data
  | Some e =>
      try_catch
        (if Js.is_case (type e) "INIT" then
           modelPath ← modelPath_of (data e);
           initModel modelPath
         else if Js.is_case (type e) "PROCESS_FRAME" then
           processFrame (data e)
         else
           console warn [Js.str "Unknown message type:"; type e])
        (fun error => postMessage (ERROR (Js.message error) None) [])
  end.

(** *** The event loop *)

(** A turn of the loop: a message of the host is dispatched, with an
    object or with null or undefined as its data, or an awaited operation
    settles and its task goes on. *)
Inductive Event :=
| Message (m : Inbound)
| Completion (i : nat) (o : Outcomes)
| EmptyMessage.

Definition step (w : State) (ev : Event) : State :=
  match ev with
  | Message m => exec (onmessage (Some m)) w
  | EmptyMessage => exec (onmessage None) w
  | Completion i o =>
      match tasks w !! i with
      | Some (Some t) =>
          exec (resume t (settle o (op t))) (settled i w)
      | _ => w
      end
  end.

Definition steps (w : State) (evs : list Event) : State := foldl step w evs.

End Script.

(** *** Observations on a state *)

(** The operation task [i] is waiting for, when it is an inference. *)
Definition inference_of (t : Task) : option (Session * gmap string Tensor) :=
  match op t with
  | run s feeds => Some (s, feeds)
  | _ => None
  end.

Definition pending_inference (w : State) (i : nat) : option (Session * gmap string Tensor) :=
  t ← mjoin (tasks w !! i); inference_of t.

(** The inferences the worker has started and not seen settle. *)
Definition inferences_in_flight (w : State) : list (Session * gmap string Tensor) :=
  omap (fun t => t ≫= inference_of) (tasks w).

(** *** A load that nothing interleaves with *)

(** How the three awaits of [initModel] turn out together. *)
Definition load_result (o : Outcomes) (modelPath : string) : Settled Session :=
  match on_fetch o modelPath with
  | Rejected e => Rejected e
  | Fulfilled modelResponse =>
      match on_arrayBuffer o modelResponse with
      | Rejected e => Rejected e
      | Fulfilled modelBuffer => on_create o modelBuffer sessionOptions
      end
  end.

Definition INIT (modelPath : string) : Inbound :=
  {| type := Js.str "INIT"; data := InitData modelPath |}.

Definition PROCESS_FRAME (data : Payload) : Inbound :=
  {| type := Js.str "PROCESS_FRAME"; data := data |}.

(** An INIT message whose awaits settle one after the other, with no
    other turn of the loop in between.  After a rejection the remaining
    completions find no task and do nothing. *)
Definition load (realm : Realm) (o : Outcomes) (modelPath : string) (w : State) : State :=
  let i := length (tasks w) in
  steps realm w [Message (INIT modelPath);
                 Completion i o; Completion (S i) o; Completion (S (S i)) o].

(** *** What a computation may post *)

(** [AllPosts clock P p]: whatever the global holds and however the
    awaited operations settle, every message [p] posts satisfies [P].
    The clock answers with one of its readings. *)
Inductive AllPosts {A : Type} (clock : nat -> Js.number) (P : Posted -> Prop)
    : Prog A -> Prop :=
| AllPosts_Ret a : AllPosts clock P (Ret a)
| AllPosts_Throw e : AllPosts clock P (Throw e)
| AllPosts_Now k :
    (forall n, AllPosts clock P (k (clock n))) -> AllPosts clock P (Now k)
| AllPosts_Console l k : AllPosts clock P k -> AllPosts clock P (Console l k)
| AllPosts_PostMessage m k :
    P m -> AllPosts clock P k -> AllPosts clock P (PostMessage m k)
| AllPosts_GetSession k :
    (forall s, AllPosts clock P (k s)) -> AllPosts clock P (GetSession k)
| AllPosts_SetSession s k :
    AllPosts clock P k -> AllPosts clock P (SetSession s k)
| AllPosts_Await X (o : Op X) k :
    (forall r, AllPosts clock P (k r)) -> AllPosts clock P (Await o k).

(** The invariant of the event loop that goes with [AllPosts]. *)
Definition posts_only (clock : nat -> Js.number) (P : Posted -> Prop) (w : State) : Prop :=
  Forall P (outbox w) /\
  Forall (fun t => match t with
                   | Some t => forall r, AllPosts clock P (resume t r)
                   | None => True
                   end) (tasks w).

(** The [processingTime] property of a posted message. *)
Definition processingTime_of (m : Outbound) : option Js.value :=
  match m with
  | FRAME_PROCESSED _ _ _ _ processingTime => Some processingTime
  | _ => None
  end.

(** The [frameId] property of a reply, [None] when it has none. *)
Definition frameId_of (m : Outbound) : option Js.value :=
  match m with
  | MODEL_LOADED _ _ => None
  | FRAME_PROCESSED frameId _ _ _ _ => Some frameId
  | ERROR _ frameId => frameId
  end.

(** The state a successful load leaves. *)
Definition loaded_state (s : Session) (w : State) : State :=
  post {| msg := MODEL_LOADED (inputNames s) (outputNames s); transfer := [] |}
    (print {| level := log;
              args := [Js.str "[Worker] Model loaded with provider:";
                       Js.str (provider_of s)] |}
       (with_session (Some s) (with_tasks (tasks w ++ [None; None; None]) w))).

(** The state a failed load leaves, [n] awaits into [initModel]. *)
Definition failed_state (e : Js.Error) (n : nat) (w : State) : State :=
  post {| msg := ERROR ("Failed to load model: " +:+ Js.message e) None; transfer := [] |}
    (with_tasks (tasks w ++ replicate n None) w).

(** The replies to a frame whose inference has settled: the result, when
    the results hold a tensor under the output name, and an error tagged
    with the frame otherwise. *)
Definition result_reply (frameId timestamp : Js.value) (processingTime : string)
    (outputTensor : option Tensor) : Posted :=
  match outputTensor with
  | Some t =>
      {| msg := FRAME_PROCESSED frameId timestamp (map Js.fround (tdata t)) (dims t)
                                (Js.str processingTime);
         transfer := [map Js.fround (tdata t)] |}
  | None =>
      {| msg := ERROR ("Processing failed: " +:+
                       "Cannot read properties of undefined (reading 'data')")
                      (Some frameId);
         transfer := [] |}
  end.

Definition failure_reply (frameId : Js.value) (e : Js.Error) : Posted :=
  {| msg := ERROR ("Processing failed: " +:+ Js.message e) (Some frameId);
     transfer := [] |}.

Definition not_initialized : Posted :=
  {| msg := ERROR "Model not initialized" None; transfer := [] |}.

(** [processingTime] as the script computes it: the difference of two
    clock readings, formatted by [toFixed(2)]. *)
Definition formatted_duration (realm : Realm) (v : Js.value) : Prop :=
  exists startReading endReading,
    v = Js.str (toFixed2 realm (Js.sub (performance_now realm endReading)
                                       (performance_now realm startReading))).

Definition processingTime_formatted (realm : Realm) (m : Posted) : Prop :=
  match processingTime_of (msg m) with
  | Some v => formatted_duration realm v
  | None => True
  end.

End Worker.

(** ** Concrete inputs *)

Module Fixtures.
Import Codec Ort Protocol Async Worker.

Definition px2 : list byte :=
  [xff; x00; x80; x07; x00; xff; x01; x09].

Definition image2x1 : ImageData :=
  {| Codec.data := Uint8ClampedArray px2; width := 2; height := 1 |}.

Definition image1x1 : ImageData :=
  {| Codec.data := Uint8ClampedArray [xff; x00; x80; x01]; width := 1; height := 1 |}.

Definition no_fallback (x : Js.number) : string := "".

(** An engine with typed arrays of up to [2^32 - 1] elements. *)
Definition engine0 : Js.Engine :=
  {| Js.max_typed_array_length := 4294967295;
     Js.invalid_length_message := fun n => "Invalid typed array length: " +:+ pretty n |}.

(** One whose typed arrays hold five elements. *)
Definition small_engine : Js.Engine :=
  {| Js.max_typed_array_length := 5;
     Js.invalid_length_message := fun n => "Invalid typed array length: " +:+ pretty n |}.

(** A clock that advances 7 ms between two readings. *)
Definition realm0 : Realm :=
  {| performance_now := fun n => Js.of_Z (1000 + 7 * Z.of_nat n);
     NumberToString := no_fallback;
     engine := engine0 |}.

Definition yolo : Session :=
  {| handle := 1; inputNames := ["images"]; outputNames := ["output0"];
     backendHint := Some "wasm" |}.

Definition other : Session :=
  {| handle := 2; inputNames := ["input"]; outputNames := ["boxes"];
     backendHint := None |}.

Definition detections : Tensor :=
  {| ttype := "float32"; tdata := [Js.one; Js.zero]; dims := [1; 2] |}.

(** A world where the model file is served, and where creating a session
    and running it turn out as given. *)
Definition world (created : Settled Session)
    (ran : Settled (gmap string Tensor)) : Outcomes :=
  {| on_fetch := fun resource => Fulfilled {| url := resource; status := 200 |};
     on_arrayBuffer := fun _ => Fulfilled [x08];
     on_create := fun _ _ => created;
     on_run := fun _ _ => ran |}.

Definition serves (s : Session) : Outcomes :=
  world (Fulfilled s) (Fulfilled {[ "output0" := detections ]}).

(** A world whose inferences answer under the output name of [other]. *)
Definition finds_boxes : Outcomes :=
  world (Fulfilled other) (Fulfilled {[ "boxes" := detections ]}).

Definition broken_model : Outcomes :=
  world (Rejected {| Js.message := "protobuf parsing failed" |})
        (Fulfilled {[ "output0" := detections ]}).

Definition frame (n : Z) : Inbound :=
  PROCESS_FRAME (FrameData image1x1 (Js.num (Js.of_Z n)) (Js.num (Js.of_Z 99))).

(** The worker after a first successful INIT. *)
Definition loaded : State := load realm0 (serves yolo) "model.onnx" initial.

Definition feeds1x1 (s : Session) : gmap string Tensor :=
  feeds_for s (planar_tensor image1x1).

(** The worker with the inference of frame 7 in flight. *)
Definition awaiting_inference : State := step realm0 loaded (Message (frame 7)).

Definition ping : Inbound := {| type := Js.str "PING"; data := NoData |}.

(** What the destructuring makes of a message that is a number. *)
Definition untyped : Inbound := {| type := Js.undefined; data := NoData |}.

(** The reply to frame 7 under [realm0]: five clock readings lie between
    the start and the end of the frame. *)
Definition frame7_result : Posted :=
  result_reply (Js.num (Js.of_Z 7)) (Js.num (Js.of_Z 99)) "35.00" (Some detections).

(** A first load, then one frame processed to the end. *)
Definition one_frame : list Event :=
  [Message (INIT "model.onnx");
   Completion 0 (serves yolo); Completion 1 (serves yolo); Completion 2 (serves yolo);
   Message (frame 7); Completion 3 (serves yolo)].

(** A first load, a frame whose inference stays in flight, and a second
    load that runs to its end meanwhile. *)
Definition reload_during_inference : list Event :=
  [Message (INIT "model.onnx");
   Completion 0 (serves yolo); Completion 1 (serves yolo); Completion 2 (serves yolo);
   Message (frame 7);
   Message (INIT "other.onnx");
   Completion 4 (serves other); Completion 5 (serves other); Completion 6 (serves other)].

End Fixtures.


(** ** Reading a tensor back *)

Module Decode.

(** The integer nearest to [255 * x], for a number between 0 and 1. *)
Definition denormalize (x : Js.number) : Z :=
  match x with
  | S754_zero _ => 0
  | S754_finite false m e =>
      if (0 <=? e)%Z then 255 * Z.pos m * 2 ^ e
      else (510 * Z.pos m + 2 ^ (- e)) / 2 ^ (1 - e)
  | _ => -1
  end.

(** The array [Array.from] makes of a typed array. *)
Definition Array_from (bytes : list byte) : list Z :=
  map (fun b => Z.of_N (Byte.to_N b)) bytes.

(** What the tensor holds for channel [k] of pixel [i] when the buffer may
    be too short: the byte, NaN where the loop read past the end, and the
    initial 0 where the loop did not come. *)
Definition expected_slot (pixels : list byte) (i k : nat) : Js.number :=
  match pixels !! (4 * i + k) with
  | Some p => Codec.normalized p
  | None => if decide (4 * i < length pixels) then Js.NaN else Js.zero
  end.

End Decode.

(** ** Disciplines of the handlers *)

Module Discipline.
Import Codec Ort Protocol Async Worker.

(** [Always P Q p]: however the clock, the global and the awaited
    operations answer, every message [p] posts satisfies [P] and every
    value [p] assigns to [session] satisfies [Q]. *)
Inductive Always {A : Type} (P : Posted -> Prop) (Q : option Session -> Prop)
    : Prog A -> Prop :=
| Always_Ret a : Always P Q (Ret a)
| Always_Throw e : Always P Q (Throw e)
| Always_Now k : (forall t, Always P Q (k t)) -> Always P Q (Now k)
| Always_Console l k : Always P Q k -> Always P Q (Console l k)
| Always_PostMessage m k : P m -> Always P Q k -> Always P Q (PostMessage m k)
| Always_GetSession k : (forall s, Always P Q (k s)) -> Always P Q (GetSession k)
| Always_SetSession s k : Q s -> Always P Q k -> Always P Q (SetSession s k)
| Always_Await X (o : Op X) k : (forall r, Always P Q (k r)) -> Always P Q (Await o k).

Definition disciplined (P : Posted -> Prop) (Q : option Session -> Prop) (w : State) : Prop :=
  Forall (fun t => match t with
                   | Some t => forall r, Always P Q (resume t r)
                   | None => True
                   end) (tasks w).

(** The transfer list of a posted message: the buffer of the output data
    for FRAME_PROCESSED, nothing for the others. *)
Definition transfers_output (m : Posted) : Prop :=
  match msg m with
  | FRAME_PROCESSED _ _ output_data _ _ => transfer m = [output_data]
  | _ => transfer m = []
  end.

(** [Quiet b p]: [p] posts nothing; it may throw only when [b]. *)
Inductive Quiet {A : Type} (may_throw : bool) : Prog A -> Prop :=
| Quiet_Ret a : Quiet may_throw (Ret a)
| Quiet_Throw e : may_throw = true -> Quiet may_throw (Throw e)
| Quiet_Now k : (forall t, Quiet may_throw (k t)) -> Quiet may_throw (Now k)
| Quiet_Console l k : Quiet may_throw k -> Quiet may_throw (Console l k)
| Quiet_GetSession k : (forall s, Quiet may_throw (k s)) -> Quiet may_throw (GetSession k)
| Quiet_SetSession s k : Quiet may_throw k -> Quiet may_throw (SetSession s k)
| Quiet_Await X (o : Op X) k : (forall r, Quiet may_throw (k r)) -> Quiet may_throw (Await o k).

(** [Answers b p]: on every path [p] posts exactly one message and then
    returns; when [b] it may instead throw before it has posted. *)
Inductive Answers {A : Type} (may_throw : bool) : Prog A -> Prop :=
| Answers_Throw e : may_throw = true -> Answers may_throw (Throw e)
| Answers_PostMessage m a : Answers may_throw (PostMessage m (Ret a))
| Answers_Now k : (forall t, Answers may_throw (k t)) -> Answers may_throw (Now k)
| Answers_Console l k : Answers may_throw k -> Answers may_throw (Console l k)
| Answers_GetSession k : (forall s, Answers may_throw (k s)) -> Answers may_throw (GetSession k)
| Answers_SetSession s k : Answers may_throw k -> Answers may_throw (SetSession s k)
| Answers_Await X (o : Op X) k : (forall r, Answers may_throw (k r)) -> Answers may_throw (Await o k).

(** Every suspended call still owes its one message. *)
Definition accounted (w : State) : Prop :=
  Forall (fun t => match t with
                   | Some t => forall r, Answers false (resume t r)
                   | None => True
                   end) (tasks w).

(** The calls that are suspended. *)
Definition in_progress (w : State) : nat := length (omap id (tasks w)).

(** The messages the switch of [onmessage] has a case for. *)
Definition is_request (ev : Event) : bool :=
  match ev with
  | Message m => Js.is_case (type m) "INIT" || Js.is_case (type m) "PROCESS_FRAME"
  | Completion _ _ => false
  | EmptyMessage => false
  end.

Definition requests (evs : list Event) : nat := length (List.filter is_request evs).

(** The messages that came with null or undefined as their data. *)
Definition is_empty (ev : Event) : bool :=
  match ev with
  | EmptyMessage => true
  | _ => false
  end.

Definition empty_messages (evs : list Event) : nat := length (List.filter is_empty evs).

(** An operation together with the type it resolves to. *)
Definition operation {X : Type} (o : Op X) : {X : Type & Op X} := existT X o.

(** The operation task [i] is waiting for. *)
Definition awaiting (w : State) (i : nat) : option {X : Type & Op X} :=
  t ← mjoin (tasks w !! i); Some (operation (op t)).

(** The reply to a frame whose inference has settled, [outputName] being
    [session.outputNames[0]] at that time. *)
Definition settled_reply (frameId timestamp : Js.value) (totalTime : string)
    (outputName : string) (ran : Settled (gmap string Tensor)) : Posted :=
  match ran with
  | Fulfilled results => result_reply frameId timestamp totalTime (results !! outputName)
  | Rejected e => failure_reply frameId e
  end.

End Discipline.

(** ** More concrete inputs *)

Module MoreFixtures.
Import Codec Ort Protocol Async Worker Fixtures.

(** Two pixels announced, one and a quarter supplied. *)
Definition short_image : ImageData :=
  {| Codec.data := Uint8ClampedArray [xff; x00; x80; x01; x40]; width := 2; height := 1 |}.

(** One pixel announced, two supplied. *)
Definition long_image : ImageData :=
  {| Codec.data := Uint8ClampedArray [xff; x00; x80; x01; x40; x20; x10; x01];
     width := 1; height := 1 |}.


(** [image1x1] with another alpha. *)
Definition image1x1_translucent : ImageData :=
  {| Codec.data := Uint8ClampedArray [xff; x00; x80; x7f]; width := 1; height := 1 |}.

Definition first_load : list Event :=
  [Message (INIT "model.onnx");
   Completion 0 (serves yolo); Completion 1 (serves yolo); Completion 2 (serves yolo)].

Definition failing_reload : list Event :=
  [Message (INIT "broken.onnx");
   Completion 3 broken_model; Completion 4 broken_model; Completion 5 broken_model].

(** The worker after [reload_during_inference]: the inference of frame 7
    is in flight on the first session, the global holds the second. *)
Definition reloaded : State := steps realm0 initial reload_during_inference.

Definition frame8 : Payload :=
  FrameData image2x1 (Js.num (Js.of_Z 8)) (Js.num (Js.of_Z 120)).

Definition frame7 : Payload :=
  FrameData image1x1 (Js.num (Js.of_Z 7)) (Js.num (Js.of_Z 99)).

(** The largest value of a u32.  It is never written out in unary. *)
Definition u32_max : nat := N.to_nat 4294967295.

(** An image announced as [u32_max] by [u32_max] pixels. *)
Definition huge_image : ImageData :=
  {| Codec.data := Uint8ClampedArray []; width := u32_max; height := u32_max |}.

(** An engine with the longest typed arrays the language allows. *)
Definition generous_engine : Js.Engine :=
  {| Js.max_typed_array_length := Js.largest_limit;
     Js.invalid_length_message := fun _ => "Invalid typed array length" |}.

(** [realm0] on the engine whose typed arrays hold five elements. *)
Definition small_realm : Realm :=
  {| performance_now := performance_now realm0;
     NumberToString := no_fallback;
     engine := small_engine |}.

Definition generous_realm : Realm :=
  {| performance_now := performance_now realm0;
     NumberToString := no_fallback;
     engine := generous_engine |}.

Definition offline : Outcomes :=
  {| on_fetch := fun _ => Rejected {| Js.message := "Failed to fetch" |};
     on_arrayBuffer := fun _ => Fulfilled [];
     on_create := fun _ _ => Fulfilled yolo;
     on_run := fun _ _ => Fulfilled ∅ |}.

End MoreFixtures.

(** ** The codec, verified *)

Module CodecProofs.
Import Codec.



Lemma fill_S w h px n out :
  fill w h px (S n) out = loop_body w h px (fill w h px n out) n.
Proof. unfold fill. rewrite seq_S, foldl_app. reflexivity. Qed.

Lemma length_loop_body w h px out i :
  length (loop_body w h px out i) = length out.
Proof. unfold loop_body. by rewrite !length_insert. Qed.

Lemma length_fill w h px n out : length (fill w h px n out) = length out.
Proof.
  induction n as [|n IH]; [done|].
  by rewrite fill_S, length_loop_body.
Qed.

(** After [n] iterations the first [n] slots of each plane hold the
    rounded channel values. *)
Lemma lookup_fill_written w h px n out i k :
  length out = 3 * (w * h) -> n <= w * h -> i < n -> k < 3 ->
  fill w h px n out !! (i + k * (w * h))
  = Some (Js.fround (channel px (i * 4 + k))).
Proof.
  intros Hlen. revert i k.
  induction n as [|n IH]; intros i k Hn Hi Hk; [lia|].
  rewrite fill_S. unfold loop_body.
  replace (2 * w * h) with (2 * (w * h)) by lia.
  set (N := w * h) in *.
  set (prev := fill w h px n out) in *.
  assert (Hprev : length prev = 3 * N) by (unfold prev; by rewrite length_fill).
  destruct (decide (i = n)) as [->|Hne].
  - destruct k as [|[|[|k]]]; [| | |lia].
    + replace (n + 0 * N) with n by lia.
      replace (n * 4 + 0) with (n * 4) by lia.
      rewrite !list_lookup_insert_ne by lia.
      by rewrite list_lookup_insert_eq by lia.
    + replace (n + 1 * N) with (n + N) by lia.
      rewrite list_lookup_insert_ne by lia.
      by rewrite list_lookup_insert_eq by (rewrite length_insert; lia).
    + by rewrite list_lookup_insert_eq by (rewrite !length_insert; lia).
  - rewrite !list_lookup_insert_ne by (destruct k as [|[|[|k]]]; lia).
    apply IH; lia.
Qed.





(** *** The two allocations *)

Lemma allocates_le engine n :
  Js.allocates engine n = true <-> (N.of_nat n <= Js.max_typed_array_length engine)%N.
Proof. unfold Js.allocates. apply N.leb_le. Qed.

Lemma allocates_gt engine n :
  Js.allocates engine n = false <-> (Js.max_typed_array_length engine < N.of_nat n)%N.
Proof. unfold Js.allocates. apply N.leb_gt. Qed.


Lemma Uint8ClampedArray_of_Returns engine d :
  Js.allocates engine (length (pixelData_of d)) = true ->
  Uint8ClampedArray_of engine d = Js.Returns (pixelData_of d).
Proof.
  intros Hfit. destruct d as [elements|bytes]; [|done]. cbn in *.
  rewrite length_map in Hfit. by rewrite Hfit.
Qed.

Lemma Uint8ClampedArray_of_inv engine d pixelData :
  Uint8ClampedArray_of engine d = Js.Returns pixelData -> pixelData = pixelData_of d.
Proof.
  destruct d as [elements|bytes]; cbn.
  - destruct (Js.allocates engine (length elements)); [|done]. by intros [= <-].
  - by intros [= <-].
Qed.

(** When both allocations succeed the result is [planar_tensor]. *)
Lemma preprocessImageData_Returns engine (imageData : ImageData) :
  Js.allocates engine (length (pixelData_of (data imageData))) = true ->
  Js.allocates engine (3 * width imageData * height imageData) = true ->
  preprocessImageData engine imageData = Js.Returns (planar_tensor imageData).
Proof.
  intros Hpixels Htensor. unfold preprocessImageData, Float32Array_new.
  rewrite (Uint8ClampedArray_of_Returns _ _ Hpixels).
  by rewrite Htensor.
Qed.

(** And it returns nothing else. *)
Lemma preprocessImageData_inv engine (imageData : ImageData) t :
  preprocessImageData engine imageData = Js.Returns t ->
  t = planar_tensor imageData
  /\ Js.allocates engine (3 * width imageData * height imageData) = true.
Proof.
  unfold preprocessImageData, Float32Array_new.
  destruct (Uint8ClampedArray_of engine (data imageData)) as [pixelData|e] eqn:Hpx; [|done].
  apply Uint8ClampedArray_of_inv in Hpx as ->.
  destruct (Js.allocates engine (3 * width imageData * height imageData)) eqn:Hfit; [|done].
  by intros [= <-].
Qed.

(** A tensor that is too long for the engine is never made: the call ends
    in the RangeError of [new Float32Array]. *)
Lemma preprocessImageData_Throws engine (imageData : ImageData) :
  Js.allocates engine (length (pixelData_of (data imageData))) = true ->
  Js.allocates engine (3 * width imageData * height imageData) = false ->
  preprocessImageData engine imageData
  = Js.Throws (Js.invalid_length engine (3 * width imageData * height imageData)).
Proof.
  intros Hpixels Hbig. unfold preprocessImageData, Float32Array_new.
  rewrite (Uint8ClampedArray_of_Returns _ _ Hpixels).
  by rewrite Hbig.
Qed.

Lemma length_planar_tensor (imageData : ImageData) :
  length (tdata (planar_tensor imageData)) = 3 * width imageData * height imageData.
Proof.
  unfold planar_tensor. cbn [tdata]. by rewrite length_fill, length_replicate.
Qed.


(** C7, as the script has it.  Whatever the width and height, and so also
    when they are not the 640 the model expects, [preprocessImageData]
    compares them with nothing.  When the engine can allocate the
    [3 * width * height] floats it returns a tensor, and the dims it
    declares are [1, 3, width, height] with the width and height it was
    given; when it cannot, [new Float32Array] throws a RangeError and no
    tensor is made. *)
Theorem preprocessImageData_no_validation realm (imageData : ImageData) :
  let engine := Worker.engine realm in
  let floats := 3 * width imageData * height imageData in
  width imageData <> MODEL_INPUT_SIZE \/ height imageData <> MODEL_INPUT_SIZE ->
  Js.allocates engine (length (pixelData_of (data imageData))) = true ->
  (Js.allocates engine floats = true ->
     exists t,
       Worker.preprocessImageData realm (Some imageData) = Async.Ret t
       /\ dims t = [1; 3; width imageData; height imageData]
       /\ length (tdata t) = floats)
  /\ (Js.allocates engine floats = false ->
        Worker.preprocessImageData realm (Some imageData)
        = Async.Throw (Js.invalid_length engine floats)).
Proof.
  intros engine floats _ Hpixels. subst engine floats.
  unfold Worker.preprocessImageData. split.
  - intros Hfit. exists (planar_tensor imageData).
    rewrite (preprocessImageData_Returns _ _ Hpixels Hfit).
    split; [reflexivity|]. split; [reflexivity|]. apply length_planar_tensor.
  - intros Hbig. by rewrite (preprocessImageData_Throws _ _ Hpixels Hbig).
Qed.

End CodecProofs.

(** ** The event loop, verified *)

Module WorkerProofs.
Import Codec Ort Protocol Async Worker.

#[local] Arguments suspend : simpl never.
#[local] Arguments step : simpl never.
#[local] Arguments feeds_for : simpl never.
#[local] Arguments Codec.preprocessImageData : simpl never.

Lemma step_message realm w m :
  step realm w (Message m) = exec realm (onmessage realm (Some m)) w.
Proof. reflexivity. Qed.

Lemma lookup_suspended {A} (l : list A) x : (l ++ [x]) !! length l = Some x.
Proof. by rewrite list_lookup_middle. Qed.

Lemma insert_suspended {A} (l : list A) x y : <[length l := y]> (l ++ [x]) = l ++ [y].
Proof.
  rewrite <- (Nat.add_0_r (length l)) at 1. by rewrite insert_app_r.
Qed.

(** The task suspended last goes on when its operation settles. *)
Lemma step_resume realm w t i o :
  i = length (tasks w) ->
  step realm (suspend t w) (Completion i o)
  = exec realm (resume t (settle o (op t))) (with_tasks (tasks w ++ [None]) w).
Proof.
  intros ->. unfold step, suspend, settled. cbn.
  by rewrite lookup_suspended, insert_suspended.
Qed.

(** A completion that names no suspended task does nothing. *)
Lemma step_no_task realm w i o :
  length (tasks w) <= i -> step realm w (Completion i o) = w.
Proof.
  intros Hi. unfold step. by rewrite (lookup_ge_None_2 _ _ Hi).
Qed.

(** Other tasks keep their index and their continuation across a turn
    that suspends a new one or settles another. *)
Lemma lookup_tasks_suspend t w i :
  i < length (tasks w) -> tasks (suspend t w) !! i = tasks w !! i.
Proof. intros Hi. unfold suspend. cbn. by rewrite lookup_app_l. Qed.

Ltac resume_next :=
  rewrite step_resume by (cbn; rewrite ?length_app; cbn; lia); cbn.

Lemma load_fulfilled realm o modelPath w s :
  load_result o modelPath = Fulfilled s ->
  load realm o modelPath w = loaded_state s w.
Proof.
  unfold load_result, load, steps. intros Hload. cbn [foldl].
  rewrite step_message. cbn. resume_next.
  destruct (on_fetch o modelPath) as [modelResponse|]; [|done]. cbn.
  resume_next.
  destruct (on_arrayBuffer o modelResponse) as [modelBuffer|]; [|done]. cbn.
  resume_next. rewrite Hload. cbn.
  unfold loaded_state, post, print, with_session, with_tasks. cbn.
  by rewrite <- !app_assoc.
Qed.

Lemma load_rejected realm o modelPath w e :
  load_result o modelPath = Rejected e ->
  exists n, load realm o modelPath w = failed_state e n w.
Proof.
  unfold load_result, load, steps. intros Hload. cbn [foldl].
  rewrite step_message. cbn. resume_next.
  destruct (on_fetch o modelPath) as [modelResponse|e1].
  - cbn. resume_next.
    destruct (on_arrayBuffer o modelResponse) as [modelBuffer|e2].
    + cbn. resume_next. rewrite Hload. cbn. exists 3.
      unfold failed_state, post, with_tasks. cbn.
      by rewrite <- !app_assoc.
    + injection Hload as ->. cbn. exists 2.
      rewrite step_no_task by (cbn; rewrite !length_app; cbn; lia).
      unfold failed_state, post, with_tasks. cbn.
      by rewrite <- !app_assoc.
  - injection Hload as ->. cbn. exists 1.
    do 2 (rewrite (step_no_task realm (post _ _))
            by (cbn; rewrite ?length_app; cbn; lia)).
    done.
Qed.

(** *** Observations that a load leaves alone *)

Lemma inferences_in_flight_app w (ts : list (option Task)) :
  inferences_in_flight (with_tasks (tasks w ++ ts) w)
  = inferences_in_flight w ++ omap (fun t => t ≫= inference_of) ts.
Proof. unfold inferences_in_flight. cbn. apply omap_app. Qed.

Lemma inferences_in_flight_loaded s w :
  inferences_in_flight (loaded_state s w) = inferences_in_flight w.
Proof.
  unfold loaded_state, inferences_in_flight. cbn.
  rewrite omap_app. cbn. by rewrite app_nil_r.
Qed.

Lemma omap_replicate_None n :
  omap (fun t : option Task => t ≫= inference_of) (replicate n None) = [].
Proof. induction n; [done|]. cbn. done. Qed.

Lemma inferences_in_flight_failed e n w :
  inferences_in_flight (failed_state e n w) = inferences_in_flight w.
Proof.
  unfold failed_state, inferences_in_flight. cbn.
  by rewrite omap_app, omap_replicate_None, app_nil_r.
Qed.

Lemma lookup_tasks_loaded s w i :
  i < length (tasks w) -> tasks (loaded_state s w) !! i = tasks w !! i.
Proof. intros Hi. unfold loaded_state. cbn. by rewrite lookup_app_l. Qed.

(** *** A frame, from the message to the suspended inference *)

Lemma frame_started realm w s imageData frameId timestamp inputTensor :
  session w = Some s ->
  Codec.preprocessImageData (engine realm) imageData
  = Js.Returns inputTensor ->
  let w1 := step realm w (Message (PROCESS_FRAME (FrameData imageData frameId timestamp))) in
  session w1 = Some s
  /\ outbox w1 = outbox w
  /\ unhandled w1 = unhandled w
  /\ length (tasks w1) = S (length (tasks w))
  /\ pending_inference w1 (length (tasks w))
     = Some (s, feeds_for s inputTensor)
  /\ inferences_in_flight w1
     = inferences_in_flight w ++ [(s, feeds_for s inputTensor)].
Proof.
  intros Hs Henc w1. unfold w1. rewrite step_message. cbn.
  repeat (rewrite ?Hs, ?Henc; progress cbn).
  unfold suspend, pending_inference, inferences_in_flight. cbn.
  rewrite length_app, lookup_suspended, omap_app. cbn.
  repeat split; try done. lia.
Qed.

(** *** The invariant: what the worker posts *)

Section Posts.
Variable clock : nat -> Js.number.
Variable P : Posted -> Prop.

Lemma AllPosts_bind {A B} (p : Prog A) (f : A -> Prog B) :
  AllPosts clock P p -> (forall a, AllPosts clock P (f a)) ->
  AllPosts clock P (bind p f).
Proof.
  intros Hp Hf. induction Hp; cbn; try (constructor; auto); auto.
Qed.

Lemma AllPosts_try_catch {A} (p : Prog A) (handler : Js.Error -> Prog A) :
  AllPosts clock P p -> (forall e, AllPosts clock P (handler e)) ->
  AllPosts clock P (try_catch p handler).
Proof.
  intros Hp Hh. induction Hp; cbn; try (constructor; auto); auto.
Qed.
End Posts.

Lemma exec_posts_only realm P p w :
  AllPosts (performance_now realm) P p ->
  posts_only (performance_now realm) P w ->
  posts_only (performance_now realm) P (exec realm p w).
Proof.
  intros Hp. revert w.
  induction Hp as [a|e|k _ IH|l k _ IH|m k Hm _ IH|k _ IH|s k _ IH|X o k Hk _];
    intros w [Hout Htasks]; cbn.
  - by split.
  - by split.
  - apply IH. by split.
  - apply IH. by split.
  - apply IH. split; [|done]. cbn. apply Forall_app. split; [done|].
    by apply Forall_singleton.
  - apply IH. by split.
  - apply IH. by split.
  - split; [done|]. unfold suspend. cbn. apply Forall_app. split; [done|].
    by apply Forall_singleton.
Qed.

(** Walks through a script, one statement at a time. *)
Ltac walk_script :=
  repeat (lazy beta zeta;
          first
            [ apply AllPosts_Ret
            | apply AllPosts_Throw
            | apply AllPosts_Now; intros ?
            | apply AllPosts_Console
            | apply AllPosts_PostMessage
            | apply AllPosts_GetSession; intros ?
            | apply AllPosts_SetSession
            | apply AllPosts_Await; intros ?
            | apply AllPosts_try_catch; [|intros ?]
            | apply AllPosts_bind; [|intros ?]
            | match goal with
              | |- AllPosts _ _ (match ?x with _ => _ end) => destruct x
              | |- AllPosts _ _ (if ?b then _ else _) => destruct b
              end ]).

(** Every message a handler posts carries a formatted duration where the
    schema has [processingTime]. *)
Lemma onmessage_posts realm (e_data : option Inbound) :
  AllPosts (performance_now realm) (processingTime_formatted realm)
           (onmessage realm e_data).
Proof.
  destruct e_data as [m|]; [|constructor].
  unfold onmessage, initModel, processFrame, the_session, destructure,
    modelPath_of, preprocessImageData, Float32Array_from,
    await, now, console, postMessage, get_session, set_session.
  walk_script;
    unfold processingTime_formatted, formatted_duration; cbn; eauto.
Qed.

Lemma step_posts_only realm w ev :
  posts_only (performance_now realm) (processingTime_formatted realm) w ->
  posts_only (performance_now realm) (processingTime_formatted realm) (step realm w ev).
Proof.
  intros Hw. destruct ev as [m|i o|].
  - rewrite step_message. apply exec_posts_only; [apply onmessage_posts|done].
  - unfold step. destruct (tasks w !! i) as [[t|]|] eqn:Hi; try done.
    destruct Hw as [Hout Htasks].
    apply exec_posts_only.
    + apply (Forall_lookup_1 _ _ _ _ Htasks Hi).
    + split; [done|]. unfold settled. cbn. by apply Forall_insert.
  - unfold step. apply exec_posts_only; [apply onmessage_posts|done].
Qed.

Lemma steps_posts_only realm evs : forall w,
  posts_only (performance_now realm) (processingTime_formatted realm) w ->
  posts_only (performance_now realm) (processingTime_formatted realm) (steps realm w evs).
Proof.
  unfold steps. induction evs as [|ev evs IH]; intros w Hw; [done|].
  cbn. apply IH. by apply step_posts_only.
Qed.

(** *** A frame, from the settled inference to the reply *)

Lemma frame_fulfilled realm w s imageData frameId timestamp inputTensor o results :
  session w = Some s ->
  Codec.preprocessImageData (engine realm) imageData
  = Js.Returns inputTensor ->
  on_run o s (feeds_for s inputTensor) = Fulfilled results ->
  let w1 := step realm w (Message (PROCESS_FRAME (FrameData imageData frameId timestamp))) in
  let w2 := step realm w1 (Completion (length (tasks w)) o) in
  let totalTime :=
    toFixed2 realm (Js.sub (performance_now realm (5 + clock_reads w))
                           (performance_now realm (clock_reads w))) in
  session w2 = Some s
  /\ unhandled w2 = unhandled w
  /\ outbox w2
     = outbox w ++ [result_reply frameId timestamp totalTime
                                 (results !! Js.first_key (outputNames s))].
Proof.
  intros Hs Henc Hrun w1 w2 totalTime. unfold w2, w1.
  rewrite step_message. cbn. repeat (rewrite ?Hs, ?Henc; progress cbn).
  resume_next. rewrite Hrun. cbn. repeat (rewrite Hs; cbn).
  destruct (results !! Js.first_key (outputNames s)); cbn; by rewrite ?Hs.
Qed.

(** The failure path of [processFrame] tags its reply with the frame. *)
Lemma frame_rejected realm w s imageData frameId timestamp inputTensor o e :
  session w = Some s ->
  Codec.preprocessImageData (engine realm) imageData
  = Js.Returns inputTensor ->
  on_run o s (feeds_for s inputTensor) = Rejected e ->
  let w1 := step realm w (Message (PROCESS_FRAME (FrameData imageData frameId timestamp))) in
  let w2 := step realm w1 (Completion (length (tasks w)) o) in
  session w2 = Some s
  /\ unhandled w2 = unhandled w
  /\ outbox w2 = outbox w ++ [failure_reply frameId e].
Proof.
  intros Hs Henc Hrun w1 w2. unfold w2, w1.
  rewrite step_message. cbn. repeat (rewrite ?Hs, ?Henc; progress cbn).
  resume_next. rewrite Hrun. cbn. by rewrite ?Hs.
Qed.

(** *** The guard of [processFrame] *)

Lemma processFrame_core realm w (data : Payload) :
  session w = None ->
  step realm w (Message (PROCESS_FRAME data)) = post not_initialized w
  /\ inferences_in_flight (post not_initialized w) = inferences_in_flight w.
Proof.
  intros Hs. split; [|done]. rewrite step_message. cbn. by rewrite Hs.
Qed.


Lemma is_case_ne (v : Js.value) (label : string) :
  v <> Js.str label -> Js.is_case v label = false.
Proof.
  intros Hne. destruct v as [|x|s]; [done|done|]. cbn.
  apply String.eqb_neq. intros ->. by apply Hne.
Qed.

(** C8.  A message whose type is neither INIT nor PROCESS_FRAME leaves one
    warning on the console and nothing else: no message is posted, the
    session, the suspended tasks and the clock are as they were, and
    nothing is thrown. *)
Theorem onmessage_unknown_type realm w (m : Inbound) :
  type m <> Js.str "INIT" -> type m <> Js.str "PROCESS_FRAME" ->
  let w' := step realm w (Message m) in
  w' = print {| level := warn;
                args := [Js.str "Unknown message type:"; type m] |} w
  /\ outbox w' = outbox w
  /\ session w' = session w
  /\ tasks w' = tasks w
  /\ unhandled w' = unhandled w.
Proof.
  intros Hinit Hframe. apply is_case_ne in Hinit, Hframe.
  cbn zeta. rewrite step_message. unfold onmessage.
  rewrite Hinit, Hframe. cbn. done.
Qed.

(** *** Loads *)

(** C5.  After two successful loads in a row the global holds the second
    session.  A frame that arrives next suspends on an inference of the
    second session, with the tensor bound to the name that session declares
    first among its inputs; and when that inference is fulfilled, the reply
    is built from what the results hold under the name that session
    declares first among its outputs.  The names of the first session play
    no part. *)
Theorem second_load_replaces_session realm w o1 o2 path1 path2 s1 s2
    imageData frameId timestamp inputTensor
    (inputName outputName : string) (moreInputs moreOutputs : list string) :
  load_result o1 path1 = Fulfilled s1 ->
  load_result o2 path2 = Fulfilled s2 ->
  inputNames s2 = inputName :: moreInputs ->
  outputNames s2 = outputName :: moreOutputs ->
  Codec.preprocessImageData (engine realm) imageData
  = Js.Returns inputTensor ->
  let w2 := load realm o2 path2 (load realm o1 path1 w) in
  let i := length (tasks w2) in
  let w3 := step realm w2 (Message (PROCESS_FRAME (FrameData imageData frameId timestamp))) in
  session w2 = Some s2
  /\ pending_inference w3 i
     = Some (s2, <[inputName := inputTensor]> (∅ : gmap string Tensor))
  /\ forall o results,
       on_run o s2 (<[inputName := inputTensor]> ∅) = Fulfilled results ->
       exists totalTime,
         outbox (step realm w3 (Completion i o))
         = outbox w2 ++ [result_reply frameId timestamp totalTime (results !! outputName)].
Proof.
  intros H1 H2 Hin Hout Henc. cbn zeta.
  rewrite (load_fulfilled _ _ _ _ _ H1), (load_fulfilled _ _ _ _ _ H2).
  set (w2 := loaded_state s2 (loaded_state s1 w)).
  assert (Hs : session w2 = Some s2) by reflexivity.
  assert (Hfeeds : feeds_for s2 inputTensor = <[inputName := inputTensor]> ∅)
    by (unfold feeds_for; by rewrite Hin).
  assert (Hkey : Js.first_key (outputNames s2) = outputName) by (by rewrite Hout).
  split; [done|]. split.
  - destruct (frame_started realm w2 s2 imageData frameId timestamp inputTensor Hs Henc)
      as (_ & _ & _ & _ & Hp & _).
    by rewrite Hp, Hfeeds.
  - intros o results Hrun. eexists. rewrite <- Hfeeds in Hrun.
    destruct (frame_fulfilled realm w2 s2 imageData frameId timestamp inputTensor
                o results Hs Henc Hrun) as (_ & _ & Houtbox).
    by rewrite Houtbox, Hkey.
Qed.

(** C10.  When a load fails while a session is loaded, the global keeps
    that session: the failure is reported, and a frame that arrives next
    is not answered with "Model not initialized" but, once encoded,
    suspends on an inference of the old session. *)
Theorem failed_reload_keeps_session realm w o modelPath e s
    imageData frameId timestamp inputTensor :
  session w = Some s ->
  load_result o modelPath = Rejected e ->
  Codec.preprocessImageData (engine realm) imageData
  = Js.Returns inputTensor ->
  let w1 := load realm o modelPath w in
  let w2 := step realm w1 (Message (PROCESS_FRAME (FrameData imageData frameId timestamp))) in
  session w1 = Some s
  /\ outbox w1
     = outbox w ++ [{| msg := ERROR ("Failed to load model: " +:+ Js.message e) None;
                       transfer := [] |}]
  /\ outbox w2 = outbox w1
  /\ pending_inference w2 (length (tasks w1)) = Some (s, feeds_for s inputTensor).
Proof.
  intros Hs Hload Henc. cbn zeta.
  destruct (load_rejected realm o modelPath w e Hload) as [n ->].
  set (w1 := failed_state e n w).
  assert (Hs1 : session w1 = Some s) by exact Hs.
  destruct (frame_started realm w1 s imageData frameId timestamp inputTensor Hs1 Henc)
    as (_ & Hout & _ & _ & Hp & _).
  by repeat split.
Qed.

(** C4, as the script has it.  When a load fails while no session is
    loaded, the worker posts an ERROR whose text ends with the cause, and
    the global is still null, which is all the script has for a failed
    state.  An INIT that comes later is handled as the first was, and
    loads when its operations succeed.  A PROCESS_FRAME that comes after
    the failure is answered with "Model not initialized", and no
    inference is started. *)
Theorem failed_first_load realm w o modelPath e :
  session w = None ->
  load_result o modelPath = Rejected e ->
  let w1 := load realm o modelPath w in
  outbox w1
  = outbox w ++ [{| msg := ERROR ("Failed to load model: " +:+ Js.message e) None;
                    transfer := [] |}]
  /\ session w1 = None
  /\ unhandled w1 = unhandled w
  /\ (forall o' modelPath' s,
        load_result o' modelPath' = Fulfilled s ->
        load realm o' modelPath' w1 = loaded_state s w1)
  /\ (forall data,
        let w2 := step realm w1 (Message (PROCESS_FRAME data)) in
        w2 = post not_initialized w1
        /\ inferences_in_flight w2 = inferences_in_flight w1).
Proof.
  intros Hs Hload. cbn zeta.
  destruct (load_rejected realm o modelPath w e Hload) as [n ->].
  set (w1 := failed_state e n w).
  assert (Hs1 : session w1 = None) by exact Hs.
  split; [done|]. split; [done|]. split; [done|]. split.
  - intros o' modelPath' s. apply load_fulfilled.
  - intros d. destruct (processFrame_core realm w1 d Hs1) as [Hstep Hflight].
    cbn zeta. by rewrite Hstep.
Qed.

(** C9, as the script has it.  INIT is never queued nor rejected.  A load
    whose operations succeed replaces the global and posts MODEL_LOADED
    whatever is suspended meanwhile: every task that was suspended, the
    inferences in flight among them, is still suspended afterwards, at
    the same index and with the same continuation. *)
Theorem reload_not_serialized realm w o modelPath s :
  load_result o modelPath = Fulfilled s ->
  let w' := load realm o modelPath w in
  session w' = Some s
  /\ outbox w'
     = outbox w ++ [{| msg := MODEL_LOADED (inputNames s) (outputNames s);
                       transfer := [] |}]
  /\ inferences_in_flight w' = inferences_in_flight w
  /\ (forall i, i < length (tasks w) -> tasks w' !! i = tasks w !! i).
Proof.
  intros Hload. cbn zeta. rewrite (load_fulfilled _ _ _ _ _ Hload).
  repeat split.
  - apply inferences_in_flight_loaded.
  - intros i. apply lookup_tasks_loaded.
Qed.

(** Whatever the worker has been sent and however its operations
    settled, the [processingTime] of every message it has posted is a
    string, not a number: the text [toFixed(2)] makes of the difference of
    two clock readings. *)
Lemma processingTime_always_formatted realm (events : list Event) m v :
  m ∈ outbox (steps realm initial events) ->
  processingTime_of (msg m) = Some v ->
  Js.is_string v = true /\ Js.is_number v = false /\ formatted_duration realm v.
Proof.
  intros Hm Hv.
  assert (Hinv : posts_only (performance_now realm) (processingTime_formatted realm)
                            (steps realm initial events)).
  { apply steps_posts_only. split; cbn; constructor. }
  destruct Hinv as [Hout _].
  rewrite Forall_forall in Hout. specialize (Hout m Hm).
  unfold processingTime_formatted in Hout. rewrite Hv in Hout.
  destruct Hout as (a & b & ->). repeat split. by exists a, b.
Qed.

(** C6, as the script has it.  A frame arrives while a session is loaded
    and is encoded; its inference is fulfilled later, in whatever state
    the worker is by then, and the results hold a tensor under the first
    output name of the session.  On arrival the frame takes four clock
    readings, the first of them [startTime]; on completion it takes two,
    the second of them [endTime].  The FRAME_PROCESSED message it posts
    carries as [processingTime] the text [toFixed(2)] makes of
    [endTime - startTime], the whole time the frame took: a string, not a
    number. *)
Theorem processingTime_is_total_elapsed_text realm w s imageData frameId timestamp
    inputTensor w' s' o results (outputName : string) (moreOutputs : list string)
    outputTensor :
  session w = Some s ->
  Codec.preprocessImageData (engine realm) imageData
  = Js.Returns inputTensor ->
  let i := length (tasks w) in
  let w1 := step realm w (Message (PROCESS_FRAME (FrameData imageData frameId timestamp))) in
  tasks w' !! i = tasks w1 !! i ->
  session w' = Some s' ->
  outputNames s' = outputName :: moreOutputs ->
  on_run o s (feeds_for s inputTensor) = Fulfilled results ->
  results !! outputName = Some outputTensor ->
  let w2 := step realm w' (Completion i o) in
  let startTime := performance_now realm (clock_reads w) in
  let endTime := performance_now realm (S (clock_reads w')) in
  let processingTime := Js.str (toFixed2 realm (Js.sub endTime startTime)) in
  clock_reads w1 = 4 + clock_reads w
  /\ outbox w1 = outbox w
  /\ clock_reads w2 = 2 + clock_reads w'
  /\ outbox w2
     = outbox w'
       ++ [{| msg := FRAME_PROCESSED frameId timestamp
                       (map Js.fround (tdata outputTensor)) (dims outputTensor)
                       processingTime;
              transfer := [map Js.fround (tdata outputTensor)] |}]
  /\ Js.is_string processingTime = true
  /\ Js.is_number processingTime = false.
Proof.
  intros Hs Henc i w1 Htask Hs' Hout Hrun Hres. revert Htask. unfold w1.
  rewrite step_message. cbn. repeat (rewrite ?Hs, ?Henc; progress cbn).
  unfold suspend at 1. cbn. unfold i. rewrite lookup_suspended. intros Htask.
  split; [done|]. split; [done|].
  unfold step. rewrite Htask. cbn. rewrite Hrun. cbn.
  repeat (rewrite ?Hs', ?Hout; progress cbn). rewrite Hres. cbn.
  by repeat split.
Qed.

(** *** Replies and frame identifiers *)

(** C3, where the script falls short of it.  Frame 7, sent before any
    model is loaded, is answered by an ERROR that has no [frameId]
    property, although the request carried one. *)
Theorem not_initialized_reply_drops_frameId :
  let w := step Fixtures.realm0 initial (Message (Fixtures.frame 7)) in
  outbox w = [not_initialized]
  /\ frameId_of (msg not_initialized) = None.
Proof. split; reflexivity. Qed.

(** The other failure path of [processFrame], for comparison: it names
    the frame in its reply. *)
Lemma processing_failure_reply_carries_frameId realm w s imageData frameId timestamp
    inputTensor o e :
  session w = Some s ->
  Codec.preprocessImageData (engine realm) imageData
  = Js.Returns inputTensor ->
  on_run o s (feeds_for s inputTensor) = Rejected e ->
  let w1 := step realm w (Message (PROCESS_FRAME (FrameData imageData frameId timestamp))) in
  exists reply,
    outbox (step realm w1 (Completion (length (tasks w)) o)) = outbox w ++ [reply]
    /\ frameId_of (msg reply) = Some frameId.
Proof.
  intros Hs Henc Hrun w1. exists (failure_reply frameId e). split; [|done].
  by destruct (frame_rejected realm w s imageData frameId timestamp inputTensor o e
                 Hs Henc Hrun) as (_ & _ & Hout).
Qed.

End WorkerProofs.

(** ** The script on small inputs *)

Module Examples.
Import Codec Ort Protocol Async Worker Fixtures MoreFixtures.

(** Planes of red, green and blue, two pixels each. *)
Example encode_2x1 :
  Codec.preprocessImageData engine0 image2x1
  = Js.Returns {| ttype := "float32";
                  tdata := [normalized xff; normalized x00;
                            normalized x00; normalized xff;
                            normalized x80; normalized x01];
                  dims := [1; 3; 2; 1] |}.
Proof. vm_compute. reflexivity. Qed.

(** An engine whose typed arrays hold five elements cannot make the six
    floats of a 2 by 1 image. *)
Example encode_small_engine :
  Codec.preprocessImageData small_engine short_image
  = Js.Throws {| Js.message := "Invalid typed array length: 6" |}.
Proof. vm_compute. reflexivity. Qed.

Example normalized_255 : normalized xff = Js.one.
Proof. vm_compute. reflexivity. Qed.

Example normalized_0 : normalized x00 = Js.zero.
Proof. vm_compute. reflexivity. Qed.

(** 128/255 as a binary32 is 0x3F008081 = 8421505 * 2^-24; as a number
    the same value has a 53-bit mantissa. *)
Example normalized_128_binary32 :
  Js.round32 (Js.div (Js.of_Z 128) (Js.of_Z 255)) = S754_finite false 8421505 (-24).
Proof. vm_compute. reflexivity. Qed.

Example normalized_128 :
  normalized x80 = S754_finite false (8421505 * 2 ^ 29) (-53).
Proof. vm_compute. reflexivity. Qed.

Example clamp_array :
  pixelData_of (PlainArray [300; -4; 17]%Z) = [xff; x00; x11].
Proof. reflexivity. Qed.

(** A buffer that is too short leaves NaN where the loop read past its
    end, and the writes past the end of the tensor are dropped. *)
Example encode_short_buffer :
  Codec.preprocessImageData engine0
    {| Codec.data := Uint8ClampedArray [xff; x00]; width := 1; height := 1 |}
  = Js.Returns {| ttype := "float32"; tdata := [Js.one; Js.zero; Js.NaN];
                  dims := [1; 3; 1; 1] |}.
Proof. vm_compute. reflexivity. Qed.

(** 12.345 is the double 0x4028B0A3D70A3D71, just above 12.345. *)
Example toFixed_12_345 :
  Js.toFixed2 no_fallback (S754_finite false 6949617174986097 (-49)) = "12.35".
Proof. vm_compute. reflexivity. Qed.

Example toFixed_tie :
  Js.toFixed2 no_fallback (Js.div (Js.of_Z 1) (Js.of_Z 8)) = "0.13".
Proof. vm_compute. reflexivity. Qed.

Example toFixed_negative :
  Js.toFixed2 no_fallback (Js.sub (Js.of_Z 1000) (Js.of_Z 1007)) = "-7.00".
Proof. vm_compute. reflexivity. Qed.

Example first_load_state :
  session loaded = Some yolo
  /\ outbox loaded = [{| msg := MODEL_LOADED ["images"] ["output0"]; transfer := [] |}]
  /\ console_out loaded
     = [{| level := log;
           args := [Js.str "[Worker] Model loaded with provider:"; Js.str "wasm"] |}].
Proof. repeat split; vm_compute; reflexivity. Qed.

Example one_frame_outbox :
  outbox (steps realm0 initial one_frame)
  = [{| msg := MODEL_LOADED ["images"] ["output0"]; transfer := [] |}; frame7_result].
Proof. vm_compute. reflexivity. Qed.

(** INIT without [data] reaches the [catch] of [onmessage]. *)
Example init_without_data :
  outbox (step realm0 initial (Message {| type := Js.str "INIT"; data := NoData |}))
  = [{| msg := ERROR "Cannot read properties of undefined (reading 'modelPath')" None;
        transfer := [] |}].
Proof. reflexivity. Qed.

(** A message that is a number has no [type]: the warning shows
    [undefined]. *)
Example message_without_type :
  step realm0 initial (Message untyped)
  = print {| level := warn;
             args := [Js.str "Unknown message type:"; Js.undefined] |} initial.
Proof. reflexivity. Qed.

(** A message with null as its data rejects the handler; nothing is posted. *)
Example empty_message :
  step realm0 initial EmptyMessage = reject no_message_data initial.
Proof. reflexivity. Qed.

End Examples.

(** ** The theorems at concrete inputs *)

Module Instances.
Import Codec Ort Protocol Async Worker Fixtures.


Lemma preprocessImageData_no_validation_witness :
  (width image2x1 <> MODEL_INPUT_SIZE \/ height image2x1 <> MODEL_INPUT_SIZE)
  /\ Js.allocates (engine realm0) (length (pixelData_of (Codec.data image2x1))) = true
  /\ Js.allocates (engine realm0) (3 * width image2x1 * height image2x1) = true
  /\ exists t,
       Worker.preprocessImageData realm0 (Some image2x1) = Ret t
       /\ dims t = [1; 3; 2; 1]
       /\ length (tdata t) = 3 * 2 * 1.
Proof.
  assert (H : width image2x1 <> MODEL_INPUT_SIZE \/ height image2x1 <> MODEL_INPUT_SIZE)
    by (left; unfold MODEL_INPUT_SIZE; cbn; lia).
  assert (Hfit : Js.allocates (engine realm0)
                    (length (pixelData_of (Codec.data image2x1))) = true) by reflexivity.
  split; [exact H|]. split; [exact Hfit|]. split; [reflexivity|].
  exact (proj1 (CodecProofs.preprocessImageData_no_validation realm0 image2x1 H Hfit)
           eq_refl).
Defined.


Lemma onmessage_unknown_type_witness :
  type ping <> Js.str "INIT" /\ type ping <> Js.str "PROCESS_FRAME"
  /\ outbox (step realm0 loaded (Message ping)) = outbox loaded
  /\ session (step realm0 loaded (Message ping)) = session loaded.
Proof.
  assert (H1 : type ping <> Js.str "INIT") by (cbn; discriminate).
  assert (H2 : type ping <> Js.str "PROCESS_FRAME") by (cbn; discriminate).
  destruct (WorkerProofs.onmessage_unknown_type realm0 loaded ping H1 H2)
    as (_ & Hout & Hs & _).
  by repeat split.
Defined.

Lemma second_load_replaces_session_witness :
  let w2 := load realm0 (serves other) "other.onnx"
              (load realm0 (serves yolo) "model.onnx" initial) in
  let w3 := step realm0 w2 (Message (frame 7)) in
  load_result (serves yolo) "model.onnx" = Fulfilled yolo
  /\ load_result (serves other) "other.onnx" = Fulfilled other
  /\ inputNames other = ["input"]
  /\ outputNames other = ["boxes"]
  /\ session w2 = Some other
  /\ pending_inference w3 6
     = Some (other, <["input" := planar_tensor image1x1]> (∅ : gmap string Tensor))
  /\ exists totalTime,
       outbox (step realm0 w3 (Completion 6 finds_boxes))
       = outbox w2
         ++ [result_reply (Js.num (Js.of_Z 7)) (Js.num (Js.of_Z 99)) totalTime
                          (Some detections)].
Proof.
  cbn zeta.
  split; [reflexivity|]. split; [reflexivity|].
  split; [reflexivity|]. split; [reflexivity|].
  destruct (WorkerProofs.second_load_replaces_session
              realm0 initial (serves yolo) (serves other)
              "model.onnx" "other.onnx" yolo other
              image1x1 (Js.num (Js.of_Z 7)) (Js.num (Js.of_Z 99))
              (planar_tensor image1x1) "input" "boxes" [] []
              eq_refl eq_refl eq_refl eq_refl eq_refl)
    as (Hs & Hpending & Hreply).
  split; [exact Hs|]. split; [exact Hpending|].
  exact (Hreply finds_boxes {[ "boxes" := detections ]} eq_refl).
Defined.

Lemma failed_reload_keeps_session_witness :
  session loaded = Some yolo
  /\ load_result broken_model "model.onnx"
     = Rejected {| Js.message := "protobuf parsing failed" |}
  /\ Codec.preprocessImageData (engine realm0) image1x1
     = Js.Returns (planar_tensor image1x1)
  /\ session (load realm0 broken_model "model.onnx" loaded) = Some yolo.
Proof.
  split; [reflexivity|]. split; [reflexivity|]. split; [reflexivity|].
  exact (proj1 (WorkerProofs.failed_reload_keeps_session
                  realm0 loaded broken_model "model.onnx" _ yolo
                  image1x1 (Js.num (Js.of_Z 7)) (Js.num (Js.of_Z 99))
                  (planar_tensor image1x1)
                  eq_refl eq_refl eq_refl)).
Defined.

Lemma failed_first_load_witness :
  session initial = None
  /\ load_result broken_model "model.onnx"
     = Rejected {| Js.message := "protobuf parsing failed" |}
  /\ session (load realm0 broken_model "model.onnx" initial) = None.
Proof.
  split; [reflexivity|]. split; [reflexivity|].
  destruct (WorkerProofs.failed_first_load realm0 initial broken_model "model.onnx" _
              eq_refl eq_refl) as (_ & Hs & _).
  exact Hs.
Defined.

Lemma reload_not_serialized_witness :
  load_result (serves other) "other.onnx" = Fulfilled other
  /\ session (load realm0 (serves other) "other.onnx" awaiting_inference) = Some other
  /\ inferences_in_flight (load realm0 (serves other) "other.onnx" awaiting_inference)
     = inferences_in_flight awaiting_inference.
Proof.
  split; [reflexivity|].
  destruct (WorkerProofs.reload_not_serialized realm0 awaiting_inference
              (serves other) "other.onnx" other eq_refl) as (Hs & _ & Hflight & _).
  by split.
Defined.

Lemma processingTime_is_total_elapsed_text_witness :
  session loaded = Some yolo
  /\ Codec.preprocessImageData (engine realm0) image1x1
     = Js.Returns (planar_tensor image1x1)
  /\ session awaiting_inference = Some yolo
  /\ outputNames yolo = ["output0"]
  /\ performance_now realm0 (clock_reads loaded) = Js.of_Z 1000
  /\ performance_now realm0 (S (clock_reads awaiting_inference)) = Js.of_Z 1035
  /\ processingTime_of (msg frame7_result) = Some (Js.str "35.00")
  /\ outbox (step realm0 awaiting_inference (Completion 3 (serves yolo)))
     = outbox awaiting_inference ++ [frame7_result].
Proof.
  split; [reflexivity|]. split; [reflexivity|]. split; [reflexivity|].
  split; [reflexivity|]. split; [reflexivity|]. split; [reflexivity|].
  split; [reflexivity|].
  destruct (WorkerProofs.processingTime_is_total_elapsed_text
              realm0 loaded yolo image1x1 (Js.num (Js.of_Z 7)) (Js.num (Js.of_Z 99))
              (planar_tensor image1x1) awaiting_inference yolo (serves yolo)
              {[ "output0" := detections ]} "output0" [] detections
              eq_refl eq_refl eq_refl eq_refl eq_refl eq_refl eq_refl)
    as (_ & _ & _ & Hout & _).
  exact Hout.
Defined.

End Instances.

(** ** Where the script and its description part *)

Module Counterexamples.
Import Codec Ort Protocol Async Worker Fixtures MoreFixtures.

(** C4.  A load that fails after an earlier one succeeded does not leave
    the worker uninitialized: frame 7, sent after the failure, gets no
    "Model not initialized" reply; an inference of the old session is
    started for it instead. *)
Lemma failed_reload_counterexample :
  let w1 := load realm0 broken_model "model.onnx" loaded in
  let w2 := step realm0 w1 (Message (frame 7)) in
  load_result broken_model "model.onnx"
  = Rejected {| Js.message := "protobuf parsing failed" |}
  /\ w2 <> post not_initialized w1
  /\ outbox w2 = outbox w1
  /\ inferences_in_flight w1 = []
  /\ inferences_in_flight w2 = [(yolo, feeds1x1 yolo)].
Proof.
  cbn zeta. split; [reflexivity|]. split.
  - intros Heq. apply (f_equal (fun w => length (outbox w))) in Heq.
    vm_compute in Heq. discriminate.
  - repeat split; vm_compute; reflexivity.
Qed.

(** C6.  The [processingTime] of the reply to frame 7 is the text "35.00",
    a string and not a number. *)
Lemma processingTime_counterexample :
  outbox (steps realm0 initial one_frame) !! 1 = Some frame7_result
  /\ processingTime_of (msg frame7_result) = Some (Js.str "35.00")
  /\ Js.is_number (Js.str "35.00") = false.
Proof. repeat split; vm_compute; reflexivity. Qed.

(** C7.  An image announced as 4294967295 by 4294967295 pixels is not of
    the size the model expects, and no tensor is produced for it: the
    floats it would take are more than any engine allocates, and
    [new Float32Array] throws a RangeError. *)
Lemma huge_image_counterexample :
  let floats := 3 * width huge_image * height huge_image in
  width huge_image <> MODEL_INPUT_SIZE
  /\ (Js.largest_limit < N.of_nat floats)%N
  /\ Js.allocates (engine generous_realm) floats = false
  /\ Worker.preprocessImageData generous_realm (Some huge_image)
     = Throw (Js.invalid_length (engine generous_realm) floats)
  /\ ~ (exists t, Worker.preprocessImageData generous_realm (Some huge_image) = Ret t).
Proof.
  cbn zeta.
  assert (Hlimit : (Js.largest_limit
                    < N.of_nat (3 * width huge_image * height huge_image))%N).
  { unfold huge_image, Js.largest_limit. cbn [width height]. unfold u32_max. lia. }
  assert (Hbig : Js.allocates (engine generous_realm)
                   (3 * width huge_image * height huge_image) = false).
  { apply CodecProofs.allocates_gt. exact Hlimit. }
  assert (Hthrow : Worker.preprocessImageData generous_realm (Some huge_image)
                   = Throw (Js.invalid_length (engine generous_realm)
                              (3 * width huge_image * height huge_image))).
  { unfold Worker.preprocessImageData.
    by rewrite (CodecProofs.preprocessImageData_Throws
                  (engine generous_realm) huge_image eq_refl Hbig). }
  split; [|split; [exact Hlimit|split; [exact Hbig|split; [exact Hthrow|]]]].
  - unfold huge_image, MODEL_INPUT_SIZE. cbn [width]. unfold u32_max. lia.
  - intros [t Ht]. rewrite Hthrow in Ht. discriminate.
Qed.

(** The same on every engine that keeps to the limit of the language. *)
Lemma huge_image_never_encoded realm :
  (Js.max_typed_array_length (engine realm) <= Js.largest_limit)%N ->
  Worker.preprocessImageData realm (Some huge_image)
  = Throw (Js.invalid_length (engine realm) (3 * width huge_image * height huge_image)).
Proof.
  intros Hlimit. unfold Worker.preprocessImageData.
  rewrite (CodecProofs.preprocessImageData_Throws (engine realm) huge_image); [done| |].
  - apply CodecProofs.allocates_le. cbn. lia.
  - apply CodecProofs.allocates_gt.
    unfold huge_image, Js.largest_limit in *. cbn [width height]. unfold u32_max. lia.
Qed.

(** C9.  With the inference of frame 7 in flight, a second INIT is handled
    at once and runs to its end: the global changes from one session to
    the other while that inference is still in flight.  When the
    inference then settles, the frame looks for the new session's output
    name in the results of the old one and fails. *)
Lemma reload_during_inference_counterexample :
  let before := awaiting_inference in
  let after := steps realm0 initial reload_during_inference in
  session before = Some yolo
  /\ inferences_in_flight before = [(yolo, feeds1x1 yolo)]
  /\ session after = Some other
  /\ inferences_in_flight after = [(yolo, feeds1x1 yolo)]
  /\ outbox after
     = outbox before ++ [{| msg := MODEL_LOADED ["input"] ["boxes"]; transfer := [] |}]
  /\ outbox (step realm0 after (Completion 3 (serves yolo)))
     = outbox after
       ++ [{| msg := ERROR "Processing failed: Cannot read properties of undefined (reading 'data')"
                            (Some (Js.num (Js.of_Z 7)));
              transfer := [] |}].
Proof. repeat split; vm_compute; reflexivity. Qed.

End Counterexamples.


(** ** More on the codec *)

Module CodecExtras.
Import Codec Decode.

Lemma denormalize_normalized (p : byte) :
  denormalize (normalized p) = Z.of_N (Byte.to_N p).
Proof. destruct p; vm_compute; reflexivity. Qed.

Lemma normalized_inj (p q : byte) : normalized p = normalized q -> p = q.
Proof.
  intros Heq. apply (f_equal denormalize) in Heq.
  rewrite !denormalize_normalized in Heq.
  assert (Hn : Byte.to_N p = Byte.to_N q) by lia.
  apply (f_equal Byte.of_N) in Hn. rewrite !Byte.of_to_N in Hn.
  by injection Hn.
Qed.

Lemma ToUint8Clamp_byte (b : byte) : Js.ToUint8Clamp (Z.of_N (Byte.to_N b)) = b.
Proof. destruct b; reflexivity. Qed.

Lemma channel_Some px j p :
  px !! j = Some p -> Js.fround (channel px j) = normalized p.
Proof. intros Hp. unfold channel, normalized. by rewrite Hp. Qed.

Lemma channel_None px j :
  px !! j = None -> Js.fround (channel px j) = Js.NaN.
Proof. intros Hp. unfold channel. by rewrite Hp. Qed.

Lemma iterations_spec L i : i < iterations L <-> 4 * i < L.
Proof.
  unfold iterations.
  pose proof (Nat.div_mod_eq (L + 3) 4).
  pose proof (Nat.mod_upper_bound (L + 3) 4). lia.
Qed.

(** The slots the loop has not come to are as they were. *)
Lemma lookup_fill_untouched w h px n out i k :
  n <= i -> i < w * h -> k < 3 ->
  fill w h px n out !! (i + k * (w * h)) = out !! (i + k * (w * h)).
Proof.
  revert i k. induction n as [|n IH]; intros i k Hn Hi Hk; [done|].
  rewrite CodecProofs.fill_S. unfold loop_body.
  replace (2 * w * h) with (2 * (w * h)) by lia.
  set (N := w * h) in *.
  rewrite !list_lookup_insert_ne by (destruct k as [|[|[|k]]]; lia).
  apply IH; lia.
Qed.

(** Slot [j] keeps the red value of pixel [j] once iteration [j] has
    written it: a later iteration writes above its own index only. *)
Lemma lookup_fill_red w h px n out j :
  length out = 3 * (w * h) -> j < n -> j < length out ->
  fill w h px n out !! j = Some (Js.fround (channel px (j * 4))).
Proof.
  intros Hout Hj Hlen. induction n as [|n IH]; [lia|].
  rewrite CodecProofs.fill_S. unfold loop_body.
  replace (2 * w * h) with (2 * (w * h)) by lia.
  set (N := w * h) in *.
  destruct (decide (j = n)) as [->|Hne].
  - rewrite !list_lookup_insert_ne by lia.
    by rewrite list_lookup_insert_eq by (rewrite CodecProofs.length_fill; lia).
  - rewrite !list_lookup_insert_ne by lia. apply IH. lia.
Qed.

(** The tensor, slot by slot, when the loop stays within the planes. *)
Lemma lookup_tensor (imageData : ImageData) i k :
  let pixels := pixelData_of (data imageData) in
  let plane := width imageData * height imageData in
  length pixels <= plane * 4 -> i < plane -> k < 3 ->
  tdata (planar_tensor imageData) !! (i + k * plane)
  = Some (if decide (4 * i < length pixels)
          then Js.fround (channel pixels (i * 4 + k)) else Js.zero).
Proof.
  intros pixels plane Hlen Hi Hk. unfold planar_tensor. cbn [tdata].
  fold pixels.
  assert (Hout : length (replicate (3 * width imageData * height imageData) Js.zero)
                 = 3 * plane) by (rewrite length_replicate; unfold plane; lia).
  assert (Hn : iterations (length pixels) <= plane).
  { destruct (decide (iterations (length pixels) <= plane)) as [|Hgt]; [done|].
    assert (plane < iterations (length pixels)) as Hp%iterations_spec by lia. lia. }
  case_decide as Hin.
  - apply CodecProofs.lookup_fill_written; try done.
    by apply iterations_spec.
  - etrans; [apply lookup_fill_untouched; try done|].
    + destruct (decide (iterations (length pixels) <= i)) as [|Hgt]; [done|].
      assert (i < iterations (length pixels)) as Hp%iterations_spec by lia. lia.
    + apply lookup_replicate_2. unfold plane in *. nia.
Qed.

Lemma lookup_tensor_short (imageData : ImageData) i k :
  let pixels := pixelData_of (data imageData) in
  let plane := width imageData * height imageData in
  length pixels <= plane * 4 -> i < plane -> k < 3 ->
  tdata (planar_tensor imageData) !! (i + k * plane)
  = Some (expected_slot pixels i k).
Proof.
  intros pixels plane Hlen Hi Hk.
  etrans; [exact (lookup_tensor imageData i k Hlen Hi Hk)|]. fold pixels.
  unfold expected_slot. replace (i * 4 + k) with (4 * i + k) by lia.
  destruct (pixels !! (4 * i + k)) as [p|] eqn:Hp.
  - apply lookup_lt_Some in Hp as Hlt.
    rewrite decide_True by lia. by rewrite (channel_Some _ _ _ Hp).
  - case_decide; [|done]. by rewrite (channel_None _ _ Hp).
Qed.

(** X1.  A buffer shorter than [width * height * 4] is not rejected for
    being short.  Whenever the engine can allocate the [3 * width * height]
    floats, the tensor is returned, with the normalised byte wherever the
    buffer has one, NaN for the channels a last, partial pixel lacks, and 0
    for the pixels the buffer does not reach; when it cannot, the call
    throws the RangeError of [new Float32Array]. *)
Theorem tensor_of_short_buffer (engine : Js.Engine) (imageData : ImageData) :
  let pixels := pixelData_of (data imageData) in
  let plane := width imageData * height imageData in
  let floats := 3 * width imageData * height imageData in
  length pixels <= plane * 4 ->
  Js.allocates engine (length pixels) = true ->
  (Js.allocates engine floats = true ->
   exists t,
     preprocessImageData engine imageData = Js.Returns t
     /\ dims t = [1; 3; width imageData; height imageData]
     /\ length (tdata t) = floats
     /\ forall i k, i < plane -> k < 3 ->
          tdata t !! (i + k * plane) = Some (expected_slot pixels i k))
  /\ (Js.allocates engine floats = false ->
      preprocessImageData engine imageData
      = Js.Throws (Js.invalid_length engine floats)).
Proof.
  intros pixels plane floats Hlen Hpixels. split.
  - intros Hfloats. exists (planar_tensor imageData).
    split; [by apply CodecProofs.preprocessImageData_Returns|].
    split; [done|]. split; [apply CodecProofs.length_planar_tensor|].
    intros i k Hi Hk. by apply lookup_tensor_short.
  - by apply CodecProofs.preprocessImageData_Throws.
Qed.

(** X2.  The loop runs over the buffer, not over [width * height].  Whenever
    the buffer has a pixel [j] and the tensor a slot [j], that slot ends up
    holding the red value of pixel [j]: with a buffer that is too long the
    slots of the green and blue planes are overwritten by red values. *)
Theorem tensor_slot_holds_red_of_pixel (engine : Js.Engine) (imageData : ImageData) j p :
  let pixels := pixelData_of (data imageData) in
  let plane := width imageData * height imageData in
  Js.allocates engine (length pixels) = true ->
  Js.allocates engine (3 * width imageData * height imageData) = true ->
  j < 3 * plane -> pixels !! (4 * j) = Some p ->
  exists t,
    preprocessImageData engine imageData = Js.Returns t
    /\ tdata t !! j = Some (normalized p).
Proof.
  intros pixels plane Hpixels Hfloats Hj Hp. exists (planar_tensor imageData).
  split; [by apply CodecProofs.preprocessImageData_Returns|].
  unfold planar_tensor. cbn [tdata].
  fold pixels. replace (4 * j) with (j * 4) in Hp by lia.
  rewrite <- (channel_Some _ _ _ Hp).
  apply lookup_fill_red.
  - rewrite length_replicate. lia.
  - apply iterations_spec. apply lookup_lt_Some in Hp. lia.
  - rewrite length_replicate. unfold plane in Hj. lia.
Qed.


(** X4.  A frame whose pixel data arrives as a plain array of the byte values,
    as [Array.from] makes it, gives the tensor of the typed array, the copy
    [new Uint8ClampedArray(data)] being one the engine can allocate. *)
Theorem plain_array_same_tensor (engine : Js.Engine) (bytes : list byte) (w h : nat) :
  Js.allocates engine (length bytes) = true ->
  preprocessImageData engine
    {| data := PlainArray (Array_from bytes); width := w; height := h |}
  = preprocessImageData engine
      {| data := Uint8ClampedArray bytes; width := w; height := h |}.
Proof.
  intros Hfit. unfold preprocessImageData, Array_from. cbn.
  assert (Hmap : map Js.ToUint8Clamp (map (fun b => Z.of_N (Byte.to_N b)) bytes) = bytes).
  { clear. induction bytes as [|b bytes IH]; [done|]. cbn.
    by rewrite ToUint8Clamp_byte, IH. }
  rewrite length_map, Hfit.
  by rewrite Hmap.
Qed.

(** X5.  Nothing but alpha is lost: two images of the same size with the same
    tensor have the same red, green and blue bytes. *)
Theorem tensor_determines_pixels (engine : Js.Engine) (a b : ImageData) (ta tb : Tensor) :
  let plane := width a * height a in
  width b = width a -> height b = height a ->
  length (pixelData_of (data a)) = plane * 4 ->
  length (pixelData_of (data b)) = plane * 4 ->
  preprocessImageData engine a = Js.Returns ta ->
  preprocessImageData engine b = Js.Returns tb ->
  tdata ta = tdata tb ->
  forall j, j mod 4 <> 3 ->
    pixelData_of (data a) !! j = pixelData_of (data b) !! j.
Proof.
  intros plane Hw Hh Ha Hb Hra Hrb Heq j Hj.
  apply CodecProofs.preprocessImageData_inv in Hra as [-> _].
  apply CodecProofs.preprocessImageData_inv in Hrb as [-> _].
  destruct (decide (j < plane * 4)) as [Hlt|Hge].
  2:{ rewrite !lookup_ge_None_2; [done|lia|lia]. }
  pose proof (Nat.div_mod_eq j 4) as Hdiv.
  pose proof (Nat.mod_upper_bound j 4 ltac:(lia)) as Hmod.
  set (i := j / 4) in *. set (k := j mod 4) in *.
  assert (Hi : i < plane) by lia. assert (Hk : k < 3) by lia.
  pose proof (lookup_tensor a i k) as Hta.
  pose proof (lookup_tensor b i k) as Htb.
  cbn zeta in Hta, Htb. rewrite Hw, Hh in Htb. fold plane in Hta, Htb.
  specialize (Hta ltac:(lia) Hi Hk). specialize (Htb ltac:(lia) Hi Hk).
  rewrite Heq, Htb in Hta. rewrite !decide_True in Hta by lia.
  replace (i * 4 + k) with j in Hta by lia.
  destruct (lookup_lt_is_Some_2 (pixelData_of (data a)) j) as [pa Hpa]; [lia|].
  destruct (lookup_lt_is_Some_2 (pixelData_of (data b)) j) as [pb Hpb]; [lia|].
  rewrite (channel_Some _ _ _ Hpa), (channel_Some _ _ _ Hpb) in Hta.
  injection Hta as Hn. apply normalized_inj in Hn. by rewrite Hpa, Hpb, Hn.
Qed.

End CodecExtras.


(** ** More on the event loop *)

Module WorkerExtras.
Import Codec Ort Protocol Async Worker Discipline.

#[local] Arguments suspend : simpl never.
#[local] Arguments step : simpl never.
#[local] Arguments feeds_for : simpl never.
#[local] Arguments Codec.preprocessImageData : simpl never.

Lemma steps_app realm w evs1 evs2 :
  steps realm w (evs1 ++ evs2) = steps realm (steps realm w evs1) evs2.
Proof. unfold steps. apply foldl_app. Qed.

(** *** What is posted and what is assigned *)

Section Always.
Variable P : Posted -> Prop.
Variable Q : option Session -> Prop.

Lemma Always_bind {A B} (p : Prog A) (f : A -> Prog B) :
  Always P Q p -> (forall a, Always P Q (f a)) -> Always P Q (bind p f).
Proof. intros Hp Hf. induction Hp; cbn; try (constructor; auto); auto. Qed.

Lemma Always_try_catch {A} (p : Prog A) (handler : Js.Error -> Prog A) :
  Always P Q p -> (forall e, Always P Q (handler e)) ->
  Always P Q (try_catch p handler).
Proof. intros Hp Hh. induction Hp; cbn; try (constructor; auto); auto. Qed.

Lemma exec_always realm p : Always P Q p -> forall w,
  (disciplined P Q w -> disciplined P Q (exec realm p w))
  /\ (Forall P (outbox w) -> Forall P (outbox (exec realm p w)))
  /\ (Q (session w) -> Q (session (exec realm p w))).
Proof.
  induction 1 as [a|e|k _ IH|l k _ IH|m k Hm _ IH|k _ IH|s k Hs _ IH|X o k Hk _];
    intros w; cbn.
  - done.
  - done.
  - apply (IH _ (tick w)).
  - apply (IH (print l w)).
  - destruct (IH (post m w)) as (Hd & Ho & Hq). repeat split; [done| |done].
    intros Hout. apply Ho. cbn. apply Forall_app. split; [done|].
    by apply Forall_singleton.
  - apply (IH _ w).
  - destruct (IH (with_session s w)) as (Hd & Ho & Hq). repeat split; [done|done|].
    intros _. by apply Hq.
  - repeat split; [|done|done].
    intros Hd. unfold disciplined, suspend. cbn. apply Forall_app. split; [done|].
    by apply Forall_singleton.
Qed.

Hypothesis onmessage_always : forall realm e_data, Always P Q (onmessage realm e_data).

Lemma step_always realm w ev :
  disciplined P Q w ->
  disciplined P Q (step realm w ev)
  /\ (Forall P (outbox w) -> Forall P (outbox (step realm w ev)))
  /\ (Q (session w) -> Q (session (step realm w ev))).
Proof.
  intros Hd. destruct ev as [m|i o|].
  - rewrite WorkerProofs.step_message.
    destruct (exec_always realm _ (onmessage_always realm (Some m)) w) as (H1 & H2 & H3).
    by repeat split; auto.
  - unfold step. destruct (tasks w !! i) as [[t|]|] eqn:Hi; try done.
    pose proof (Forall_lookup_1 _ _ _ _ Hd Hi) as Ht. cbn in Ht.
    destruct (exec_always realm _ (Ht (settle o (op t))) (settled i w))
      as (H1 & H2 & H3).
    repeat split; [|done|done].
    apply H1. unfold disciplined, settled. cbn. by apply Forall_insert.
  - unfold step.
    destruct (exec_always realm _ (onmessage_always realm None) w) as (H1 & H2 & H3).
    by repeat split; auto.
Qed.

Lemma steps_always realm evs : forall w,
  disciplined P Q w ->
  disciplined P Q (steps realm w evs)
  /\ (Forall P (outbox w) -> Forall P (outbox (steps realm w evs)))
  /\ (Q (session w) -> Q (session (steps realm w evs))).
Proof.
  unfold steps. induction evs as [|ev evs IH]; intros w Hd; [done|].
  cbn. destruct (step_always realm w ev Hd) as (H1 & H2 & H3).
  destruct (IH _ H1) as (H4 & H5 & H6). by repeat split; auto.
Qed.

End Always.

(** Walks through a script, one statement at a time. *)
Ltac walk_always :=
  repeat (lazy beta zeta;
          first
            [ apply Always_Ret
            | apply Always_Throw
            | apply Always_Now; intros ?
            | apply Always_Console
            | apply Always_PostMessage
            | apply Always_GetSession; intros ?
            | apply Always_SetSession
            | apply Always_Await; intros ?
            | apply Always_try_catch; [|intros ?]
            | apply Always_bind; [|intros ?]
            | match goal with
              | |- Always _ _ (match ?x with _ => _ end) => destruct x
              | |- Always _ _ (if ?b then _ else _) => destruct b
              end ]).

Lemma onmessage_transfers_and_keeps realm e_data :
  Always transfers_output is_Some (onmessage realm e_data).
Proof.
  unfold onmessage, initModel, processFrame, the_session, destructure,
    modelPath_of, Worker.preprocessImageData, Float32Array_from,
    await, now, console, postMessage, get_session, set_session.
  walk_always; unfold transfers_output; cbn; eauto.
Qed.

Lemma initial_disciplined P Q : disciplined P Q initial.
Proof. unfold disciplined. cbn. constructor. Qed.

(** X6.  Every FRAME_PROCESSED message the worker posts, in any run, names in
    its transfer list exactly the buffer of its own output data, and every
    other message is posted with an empty transfer list. *)
Theorem only_output_is_transferred realm (events : list Event) m :
  m ∈ outbox (steps realm initial events) -> transfers_output m.
Proof.
  intros Hm.
  destruct (steps_always transfers_output is_Some onmessage_transfers_and_keeps
              realm events initial (initial_disciplined _ _)) as (_ & Hout & _).
  assert (Hall : Forall transfers_output (outbox (steps realm initial events)))
    by (apply Hout; constructor).
  rewrite Forall_forall in Hall. by apply Hall.
Qed.

(** X7.  Once a session is loaded, [session] is never null again, whatever
    messages and completions follow: no path of the script assigns null,
    and a failed reload leaves the variable alone. *)
Theorem session_stays_loaded realm (before after : list Event) :
  is_Some (session (steps realm initial before)) ->
  is_Some (session (steps realm initial (before ++ after))).
Proof.
  intros Hs. rewrite steps_app.
  destruct (steps_always transfers_output is_Some onmessage_transfers_and_keeps
              realm before initial (initial_disciplined _ _)) as (Hd & _ & _).
  by destruct (steps_always transfers_output is_Some onmessage_transfers_and_keeps
                 realm after _ Hd) as (_ & _ & Hq); auto.
Qed.

(** *** One message for every request *)

Lemma Quiet_weaken {A} b (p : Prog A) : Quiet false p -> Quiet b p.
Proof. induction 1; try (constructor; auto). done. Qed.

Lemma Answers_weaken {A} b (p : Prog A) : Answers false p -> Answers b p.
Proof. induction 1; try (constructor; auto). done. Qed.

Lemma Quiet_bind {A B} b (p : Prog A) (f : A -> Prog B) :
  Quiet b p -> (forall a, Quiet b (f a)) -> Quiet b (bind p f).
Proof. intros Hp Hf. induction Hp; cbn; try (constructor; auto); auto. Qed.

Lemma Answers_bind {A B} b (p : Prog A) (f : A -> Prog B) :
  Quiet b p -> (forall a, Answers b (f a)) -> Answers b (bind p f).
Proof. intros Hp Hf. induction Hp; cbn; try (constructor; auto); auto. Qed.

Lemma Answers_try_catch {A} b b' (p : Prog A) (handler : Js.Error -> Prog A) :
  Answers b' p -> (forall e, Answers b (handler e)) ->
  Answers b (try_catch p handler).
Proof. intros Hp Hh. induction Hp; cbn; try (constructor; auto); auto. Qed.

Lemma in_progress_suspend t w : in_progress (suspend t w) = S (in_progress w).
Proof.
  unfold in_progress, suspend. cbn. rewrite omap_app, length_app. cbn. lia.
Qed.

Lemma in_progress_settled w i t :
  tasks w !! i = Some (Some t) -> S (in_progress (settled i w)) = in_progress w.
Proof.
  unfold in_progress, settled. cbn. generalize (tasks w). intros l. revert i.
  induction l as [|x l IH]; intros i Hi; [done|].
  destruct i as [|i]; cbn in *.
  - injection Hi as ->. done.
  - destruct x; cbn; rewrite <- (IH i Hi); done.
Qed.

(** A call that owes one message either posts it or is suspended owing it. *)
Lemma exec_answers realm p : Answers false p -> forall w,
  accounted w ->
  accounted (exec realm p w)
  /\ unhandled (exec realm p w) = unhandled w
  /\ length (outbox (exec realm p w)) + in_progress (exec realm p w)
     = S (length (outbox w) + in_progress w).
Proof.
  induction 1 as [e He|m a|k _ IH|l k _ IH|k _ IH|s k _ IH|X o k Hk _];
    intros w Hw; cbn.
  - done.
  - repeat split; [done|]. rewrite length_app. cbn. unfold in_progress. cbn. lia.
  - apply (IH _ (tick w)). done.
  - apply (IH (print l w)). done.
  - apply (IH _ w). done.
  - apply (IH (with_session s w)). done.
  - repeat split.
    + unfold accounted, suspend. cbn. apply Forall_app. split; [done|].
      by apply Forall_singleton.
    + rewrite in_progress_suspend. unfold suspend. cbn. lia.
Qed.

Ltac walk_answers :=
  repeat (lazy beta zeta;
          first
            [ apply Answers_PostMessage
            | apply Answers_Throw; reflexivity
            | apply Answers_Now; intros ?
            | apply Answers_Console
            | apply Answers_GetSession; intros ?
            | apply Answers_SetSession
            | apply Answers_Await; intros ?
            | apply (Answers_try_catch _ true); [|intros ?]
            | apply Answers_bind; [|intros ?]
            | apply Quiet_Ret
            | apply Quiet_Throw; reflexivity
            | apply Quiet_Now; intros ?
            | apply Quiet_Console
            | apply Quiet_GetSession; intros ?
            | apply Quiet_SetSession
            | apply Quiet_Await; intros ?
            | apply Quiet_bind; [|intros ?]
            | match goal with
              | |- Answers _ (match ?x with _ => _ end) => destruct x
              | |- Quiet _ (match ?x with _ => _ end) => destruct x
              end ]).

Lemma initModel_answers modelPath : Answers false (initModel modelPath).
Proof.
  unfold initModel, the_session, await, console, postMessage, get_session, set_session.
  walk_answers.
Qed.

Lemma processFrame_answers realm data : Answers true (processFrame realm data).
Proof.
  unfold processFrame, the_session, destructure, Worker.preprocessImageData,
    Float32Array_from, await, now, console, postMessage, get_session.
  walk_answers.
Qed.

Lemma onmessage_answers realm m :
  is_request (Message m) = true -> Answers false (onmessage realm (Some m)).
Proof.
  unfold is_request, onmessage. intros Hreq.
  apply (Answers_try_catch _ true); [|intros e; apply Answers_PostMessage].
  destruct (Js.is_case (type m) "INIT").
  - apply Answers_bind.
    + unfold modelPath_of. destruct (data m); by constructor.
    + intros modelPath. apply Answers_weaken, initModel_answers.
  - destruct (Js.is_case (type m) "PROCESS_FRAME"); [|done].
    apply processFrame_answers.
Qed.

Lemma step_answers realm w ev :
  accounted w ->
  accounted (step realm w ev)
  /\ unhandled (step realm w ev)
     = unhandled w ++ (if is_empty ev then [no_message_data] else [])
  /\ length (outbox (step realm w ev)) + in_progress (step realm w ev)
     = length (outbox w) + in_progress w + (if is_request ev then 1 else 0).
Proof.
  intros Hw. destruct ev as [m|i o|]; cbn [is_empty]; rewrite ?app_nil_r.
  - rewrite WorkerProofs.step_message.
    destruct (is_request (Message m)) eqn:Hreq.
    + destruct (exec_answers realm _ (onmessage_answers realm m Hreq) w Hw)
        as (H1 & H2 & H3).
      repeat split; [done|done|lia].
    + unfold is_request in Hreq. apply orb_false_elim in Hreq as [Hi Hf].
      unfold onmessage. rewrite Hi, Hf. cbn. repeat split; [done|].
      unfold in_progress. cbn. lia.
  - unfold step. cbn [is_request].
    destruct (tasks w !! i) as [[t|]|] eqn:Hi; try (repeat split; [done|lia]).
    pose proof (Forall_lookup_1 _ _ _ _ Hw Hi) as Ht. cbn in Ht.
    assert (Hs : accounted (settled i w)).
    { unfold accounted, settled. cbn. by apply Forall_insert. }
    destruct (exec_answers realm _ (Ht (settle o (op t))) (settled i w) Hs)
      as (H1 & H2 & H3).
    repeat split; [done|done|].
    pose proof (in_progress_settled w i t Hi) as Hp.
    assert (length (outbox (settled i w)) = length (outbox w)) by done. lia.
  - unfold step. cbn. repeat split; [done|]. unfold in_progress. cbn. lia.
Qed.

(** X8.  In every run, every INIT and every PROCESS_FRAME message is answered by
    exactly one posted message, at once or when its call ends, and nothing
    else is ever posted: the messages posted and the calls still suspended
    add up to the requests received.  The only handler that ends in an
    uncaught error is that of a message whose data is null or undefined:
    the destructuring outside the [try] throws, once for each such
    message, and nothing is posted for it. *)
Theorem one_reply_per_request realm (events : list Event) :
  let w := steps realm initial events in
  length (outbox w) + in_progress w = requests events
  /\ unhandled w = replicate (empty_messages events) no_message_data.
Proof.
  cbn zeta.
  assert (Hgen : forall evs w, accounted w ->
            accounted (steps realm w evs)
            /\ unhandled (steps realm w evs)
               = unhandled w ++ replicate (empty_messages evs) no_message_data
            /\ length (outbox (steps realm w evs)) + in_progress (steps realm w evs)
               = length (outbox w) + in_progress w + requests evs).
  { unfold steps, requests, empty_messages.
    induction evs as [|ev evs IH]; intros w Hw; cbn.
    - split; [done|]. split; [by rewrite app_nil_r|lia].
    - destruct (step_answers realm w ev Hw) as (H1 & H2 & H3).
      destruct (IH _ H1) as (H4 & H5 & H6).
      repeat split; [done| |].
      + rewrite H5, H2, <- app_assoc. by destruct (is_empty ev).
      + rewrite H6, H3. destruct (is_request ev); cbn; lia. }
  destruct (Hgen events initial) as (_ & Hu & Hn).
  - unfold accounted. cbn. constructor.
  - split; [|exact Hu]. rewrite Hn. cbn. lia.
Qed.

(** *** Frames in flight *)

Lemma frameId_of_settled_reply frameId timestamp totalTime outputName ran :
  frameId_of (msg (settled_reply frameId timestamp totalTime outputName ran))
  = Some frameId.
Proof.
  unfold settled_reply, result_reply, failure_reply.
  destruct ran as [results|e]; [destruct (results !! outputName)|]; done.
Qed.

(** A frame leaves the tasks suspended before it alone. *)
Lemma frame_started_tasks realm w s imageData frameId timestamp j :
  session w = Some s -> j < length (tasks w) ->
  tasks (step realm w (Message (PROCESS_FRAME (FrameData imageData frameId timestamp)))) !! j
  = tasks w !! j.
Proof.
  intros Hs Hj. rewrite WorkerProofs.step_message. cbn.
  repeat (rewrite Hs; cbn).
  destruct (Codec.preprocessImageData (engine realm) imageData)
    as [inputTensor|e]; cbn; repeat (rewrite Hs; cbn); [|done].
  unfold suspend. cbn. by rewrite lookup_app_l.
Qed.

(** The inference of a frame settles, in whatever state the worker is by
    then.  The reply is looked up under the first output name of the
    session current at that time. *)
Lemma frame_settles realm w s imageData frameId timestamp inputTensor w' s' o :
  session w = Some s ->
  Codec.preprocessImageData (engine realm) imageData
  = Js.Returns inputTensor ->
  tasks w' !! length (tasks w)
  = tasks (step realm w (Message (PROCESS_FRAME (FrameData imageData frameId timestamp))))
      !! length (tasks w) ->
  session w' = Some s' ->
  let w2 := step realm w' (Completion (length (tasks w)) o) in
  let totalTime :=
    toFixed2 realm (Js.sub (performance_now realm (S (clock_reads w')))
                           (performance_now realm (clock_reads w))) in
  outbox w2
  = outbox w' ++ [settled_reply frameId timestamp totalTime
                                (Js.first_key (outputNames s'))
                                (on_run o s (feeds_for s inputTensor))]
  /\ session w2 = Some s'
  /\ tasks w2 = <[length (tasks w) := None]> (tasks w')
  /\ unhandled w2 = unhandled w'.
Proof.
  intros Hs Henc Htask Hs'. revert Htask.
  rewrite WorkerProofs.step_message. cbn.
  repeat (rewrite ?Hs, ?Henc; progress cbn).
  unfold suspend. cbn. rewrite WorkerProofs.lookup_suspended. intros Htask.
  unfold step. rewrite Htask. cbn. unfold settled_reply.
  destruct (on_run o s _) as [results|e]; cbn; repeat (rewrite Hs'; cbn).
  - unfold result_reply.
    destruct (results !! Js.first_key (outputNames s')); cbn; by rewrite ?Hs'.
  - done.
Qed.

(** X9.  A frame that arrived while a session was loaded gets exactly one
    reply when its inference settles, whatever the worker has done in
    between: the reply carries the frame's own [frameId], the task is gone
    afterwards, and nothing is thrown.  The inference was given the tensor
    under the name the session of that time declares first among its
    inputs; the output tensor is the one the results hold under the name
    declared first among its outputs by the session that is current when
    the inference settles, not by the session that ran it.  The time
    reported runs from the first reading of the clock to the last. *)
Theorem frame_reply_after_interleaving realm w s imageData frameId timestamp inputTensor
    w' s' o (inputName outputName : string) (moreInputs moreOutputs : list string) :
  session w = Some s ->
  inputNames s = inputName :: moreInputs ->
  Codec.preprocessImageData (engine realm) imageData
  = Js.Returns inputTensor ->
  tasks w' !! length (tasks w)
  = tasks (step realm w (Message (PROCESS_FRAME (FrameData imageData frameId timestamp))))
      !! length (tasks w) ->
  session w' = Some s' ->
  outputNames s' = outputName :: moreOutputs ->
  let w2 := step realm w' (Completion (length (tasks w)) o) in
  let startTime := performance_now realm (clock_reads w) in
  let endTime := performance_now realm (S (clock_reads w')) in
  let totalTime := toFixed2 realm (Js.sub endTime startTime) in
  let ran := on_run o s (<[inputName := inputTensor]> ∅) in
  let reply :=
    match ran with
    | Fulfilled results =>
        result_reply frameId timestamp totalTime (results !! outputName)
    | Rejected e => failure_reply frameId e
    end in
  outbox w2 = outbox w' ++ [reply]
  /\ frameId_of (msg reply) = Some frameId
  /\ tasks w2 !! length (tasks w) = Some None
  /\ unhandled w2 = unhandled w'.
Proof.
  intros Hs Hin Henc Htask Hs' Hout. cbn zeta.
  destruct (frame_settles realm w s imageData frameId timestamp inputTensor w' s' o
              Hs Henc Htask Hs') as (Houtbox & _ & Htasks & Hun).
  assert (Hfeeds : feeds_for s inputTensor = <[inputName := inputTensor]> ∅)
    by (unfold feeds_for; by rewrite Hin).
  assert (Hkey : Js.first_key (outputNames s') = outputName) by (by rewrite Hout).
  rewrite Hfeeds, Hkey in Houtbox. unfold settled_reply in Houtbox.
  split; [exact Houtbox|]. split.
  { pose proof (frameId_of_settled_reply frameId timestamp
                  (toFixed2 realm (Js.sub (performance_now realm (S (clock_reads w')))
                                          (performance_now realm (clock_reads w))))
                  outputName (on_run o s (<[inputName := inputTensor]> ∅))) as Hid.
    exact Hid. }
  split; [|done]. rewrite Htasks. apply list_lookup_insert_eq.
  apply lookup_lt_is_Some. rewrite Htask.
  rewrite WorkerProofs.step_message. cbn.
  repeat (rewrite ?Hs, ?Henc; progress cbn).
  unfold suspend. cbn. rewrite WorkerProofs.lookup_suspended. eauto.
Qed.

(** X10.  Two frames in flight on one session.  When the inference of the
    second settles before that of the first, the replies are posted in
    that order, each with its own [frameId] and its own results. *)
Theorem frames_complete_out_of_order realm w s
    imageA frameIdA timestampA tensorA imageB frameIdB timestampB tensorB oA oB :
  session w = Some s ->
  Codec.preprocessImageData (engine realm) imageA = Js.Returns tensorA ->
  Codec.preprocessImageData (engine realm) imageB = Js.Returns tensorB ->
  let i := length (tasks w) in
  let w4 := steps realm w [Message (PROCESS_FRAME (FrameData imageA frameIdA timestampA));
                           Message (PROCESS_FRAME (FrameData imageB frameIdB timestampB));
                           Completion (S i) oB;
                           Completion i oA] in
  exists totalA totalB,
    outbox w4
    = outbox w
      ++ [settled_reply frameIdB timestampB totalB (Js.first_key (outputNames s))
                        (on_run oB s (feeds_for s tensorB));
          settled_reply frameIdA timestampA totalA (Js.first_key (outputNames s))
                        (on_run oA s (feeds_for s tensorA))]
    /\ tasks w4 !! i = Some None
    /\ tasks w4 !! S i = Some None
    /\ session w4 = Some s.
Proof.
  intros Hs HencA HencB i. unfold steps. cbn [foldl].
  set (wA := step realm w (Message (PROCESS_FRAME (FrameData imageA frameIdA timestampA)))).
  set (wB := step realm wA (Message (PROCESS_FRAME (FrameData imageB frameIdB timestampB)))).
  destruct (WorkerProofs.frame_started realm w s imageA frameIdA timestampA tensorA Hs HencA)
    as (HsA & HoutA & _ & HlenA & _). fold wA in HsA, HoutA, HlenA.
  destruct (WorkerProofs.frame_started realm wA s imageB frameIdB timestampB tensorB
              HsA HencB)
    as (HsB & HoutB & _ & HlenB & _). fold wB in HsB, HoutB, HlenB.
  destruct (frame_settles realm wA s imageB frameIdB timestampB tensorB wB s oB
              HsA HencB eq_refl HsB)
    as (Hout3 & Hs3 & Htasks3 & _).
  rewrite HlenA in Hout3, Hs3, Htasks3. fold i in Hout3, Hs3, Htasks3.
  set (w3 := step realm wB (Completion (S i) oB)) in *.
  assert (Htask : tasks w3 !! i = tasks wA !! i).
  { rewrite Htasks3, list_lookup_insert_ne by lia.
    apply (frame_started_tasks realm wA s imageB frameIdB timestampB i HsA). lia. }
  destruct (frame_settles realm w s imageA frameIdA timestampA tensorA w3 s oA
              Hs HencA Htask Hs3)
    as (Hout4 & Hs4 & Htasks4 & _).
  fold i in Hout4, Hs4, Htasks4.
  set (w4 := step realm w3 (Completion i oA)) in *.
  assert (Hlen : length (tasks wB) = S (S i)) by (rewrite HlenB, HlenA; done).
  eexists _, _. split; [|split; [|split; [|exact Hs4]]].
  - rewrite Hout4, Hout3, HoutB, HoutA, <- app_assoc. reflexivity.
  - rewrite Htasks4, Htasks3.
    apply list_lookup_insert_eq. rewrite length_insert. lia.
  - rewrite Htasks4, Htasks3, list_lookup_insert_ne by lia.
    apply list_lookup_insert_eq. lia.
Qed.

(** *** Loading, step by step *)

(** X11.  INIT fetches the path it was given, reads the body of whatever
    response arrives without looking at its status, and hands exactly
    those bytes to [InferenceSession.create], with the providers webgl and
    then wasm, all graph optimisations, parallel execution, and the memory
    arena and pattern switched on.  Until the session is created nothing
    is posted and [session] is as it was. *)
Theorem init_pipeline realm w modelPath o response bytes :
  on_fetch o modelPath = Fulfilled response ->
  on_arrayBuffer o response = Fulfilled bytes ->
  let i := length (tasks w) in
  let w1 := step realm w (Message (INIT modelPath)) in
  let w2 := step realm w1 (Completion i o) in
  let w3 := step realm w2 (Completion (S i) o) in
  awaiting w1 i = Some (operation (fetch modelPath))
  /\ awaiting w2 (S i) = Some (operation (arrayBuffer response))
  /\ awaiting w3 (S (S i))
     = Some (operation
               (InferenceSession_create bytes
                  {| executionProviders := ["webgl"; "wasm"];
                     graphOptimizationLevel := "all";
                     executionMode := "parallel";
                     enableCpuMemArena := true;
                     enableMemPattern := true |}))
  /\ outbox w3 = outbox w
  /\ session w3 = session w
  /\ unhandled w3 = unhandled w.
Proof.
  intros Hfetch Hbody. cbn zeta.
  rewrite WorkerProofs.step_message. cbn. split.
  { unfold awaiting, suspend. cbn. by rewrite WorkerProofs.lookup_suspended. }
  WorkerProofs.resume_next. rewrite Hfetch. cbn. split.
  { unfold awaiting, suspend. cbn.
    replace (S (length (tasks w))) with (length (tasks w ++ [None]))
      by (rewrite length_app; cbn; lia).
    by rewrite WorkerProofs.lookup_suspended. }
  WorkerProofs.resume_next. rewrite Hbody. cbn. split; [|done].
  unfold awaiting, suspend. cbn.
  replace (S (S (length (tasks w)))) with (length ((tasks w ++ [None]) ++ [None]))
    by (rewrite !length_app; cbn; lia).
  by rewrite WorkerProofs.lookup_suspended.
Qed.

(** X12.  When the fetch is rejected the load ends there: the failure is
    reported with its cause, neither the body is read nor a session
    created, nothing stays suspended, and [session] is as it was. *)
Theorem failed_fetch_ends_load realm w modelPath o e :
  on_fetch o modelPath = Rejected e ->
  let i := length (tasks w) in
  let w2 := steps realm w [Message (INIT modelPath); Completion i o] in
  outbox w2
  = outbox w ++ [{| msg := ERROR ("Failed to load model: " +:+ Js.message e) None;
                    transfer := [] |}]
  /\ in_progress w2 = in_progress w
  /\ awaiting w2 (S i) = None
  /\ session w2 = session w
  /\ unhandled w2 = unhandled w.
Proof.
  intros Hfetch. cbn zeta. unfold steps. cbn [foldl].
  rewrite WorkerProofs.step_message. cbn.
  WorkerProofs.resume_next. rewrite Hfetch. cbn.
  repeat split.
  - unfold in_progress. cbn. rewrite omap_app. cbn. by rewrite app_nil_r.
  - unfold awaiting. cbn.
    rewrite lookup_ge_None_2 by (rewrite length_app; cbn; lia). done.
Qed.

(** *** A frame that is too large *)

(** X15.  A frame whose [3 * width * height] floats the engine cannot
    allocate, sent while a session is loaded, is answered at once: the
    RangeError of [new Float32Array] is caught in [processFrame], which
    posts one ERROR with the frame's own [frameId] and the message of the
    error.  No inference is started, the session stays, nothing is thrown;
    the clock is read three times. *)
Theorem unallocatable_frame_is_reported realm w s imageData frameId timestamp :
  let floats := 3 * width imageData * height imageData in
  session w = Some s ->
  Js.allocates (engine realm) (length (pixelData_of (Codec.data imageData))) = true ->
  Js.allocates (engine realm) floats = false ->
  let w1 := step realm w (Message (PROCESS_FRAME (FrameData imageData frameId timestamp))) in
  outbox w1
  = outbox w
    ++ [{| msg := ERROR ("Processing failed: "
                         +:+ Js.invalid_length_message (engine realm) floats)
                        (Some frameId);
           transfer := [] |}]
  /\ tasks w1 = tasks w
  /\ session w1 = Some s
  /\ unhandled w1 = unhandled w
  /\ clock_reads w1 = 3 + clock_reads w.
Proof.
  intros floats Hs Hpixels Hbig. cbn zeta.
  rewrite WorkerProofs.step_message. cbn.
  rewrite Hs. cbn.
  rewrite (CodecProofs.preprocessImageData_Throws _ _ Hpixels Hbig). cbn.
  done.
Qed.

(** *** Requests without data *)


(** *** Two loads at once *)

Lemma step_completion_at realm w base extra k t o :
  tasks w = base ++ extra -> extra !! k = Some (Some t) ->
  step realm w (Completion (length base + k) o)
  = exec realm (resume t (settle o (op t))) (with_tasks (base ++ <[k := None]> extra) w).
Proof.
  intros Hw Hk. unfold step, settled. rewrite Hw.
  rewrite lookup_app_r by lia.
  replace (length base + k - length base) with k by lia. rewrite Hk.
  by rewrite insert_app_r.
Qed.

Lemma step_completion_first realm w base extra t o :
  tasks w = base ++ extra -> extra !! 0 = Some (Some t) ->
  step realm w (Completion (length base) o)
  = exec realm (resume t (settle o (op t))) (with_tasks (base ++ <[0 := None]> extra) w).
Proof.
  intros Hw Hk. rewrite <- (Nat.add_0_r (length base)).
  by apply step_completion_at.
Qed.

(** X14.  Nothing orders two loads.  When a second INIT arrives while the first
    is still fetching, and the operations of the second settle before
    those of the first, both loads post MODEL_LOADED, the second first, and
    the session that stays is the one created last: that of the INIT that
    was sent first. *)
Theorem last_created_session_stays realm w pathA pathB oA oB sA sB :
  load_result oA pathA = Fulfilled sA ->
  load_result oB pathB = Fulfilled sB ->
  let i := length (tasks w) in
  let w' := steps realm w
              [Message (INIT pathA); Message (INIT pathB);
               Completion (i + 1) oB; Completion (i + 2) oB; Completion (i + 3) oB;
               Completion i oA; Completion (i + 4) oA; Completion (i + 5) oA] in
  session w' = Some sA
  /\ outbox w'
     = outbox w
       ++ [{| msg := MODEL_LOADED (inputNames sB) (outputNames sB); transfer := [] |};
           {| msg := MODEL_LOADED (inputNames sA) (outputNames sA); transfer := [] |}]
  /\ unhandled w' = unhandled w.
Proof.
  unfold load_result. intros HA HB. cbn zeta.
  destruct (on_fetch oA pathA) as [rA|] eqn:HfA; [|done].
  destruct (on_arrayBuffer oA rA) as [bA|] eqn:HbA; [|done].
  destruct (on_fetch oB pathB) as [rB|] eqn:HfB; [|done].
  destruct (on_arrayBuffer oB rB) as [bB|] eqn:HbB; [|done].
  match goal with |- context [steps realm w ?evs] =>
    eassert (Hrun : steps realm w evs = _) end.
  { unfold steps. cbn [foldl]. rewrite !WorkerProofs.step_message. cbn.
    erewrite (step_completion_at realm _ (tasks w) _ 1);
      [|unfold suspend; cbn; rewrite <- app_assoc; reflexivity|reflexivity].
    cbn. rewrite HfB. cbn.
    erewrite (step_completion_at realm _ (tasks w) _ 2);
      [|unfold suspend; cbn; rewrite <- !app_assoc; reflexivity|reflexivity].
    cbn. rewrite HbB. cbn.
    erewrite (step_completion_at realm _ (tasks w) _ 3);
      [|unfold suspend; cbn; rewrite <- !app_assoc; reflexivity|reflexivity].
    cbn. rewrite HB. cbn.
    erewrite (step_completion_first realm _ (tasks w));
      [|cbn; reflexivity|reflexivity].
    cbn. rewrite HfA. cbn.
    erewrite (step_completion_at realm _ (tasks w) _ 4);
      [|unfold suspend; cbn; rewrite <- !app_assoc; reflexivity|reflexivity].
    cbn. rewrite HbA. cbn.
    erewrite (step_completion_at realm _ (tasks w) _ 5);
      [|unfold suspend; cbn; rewrite <- !app_assoc; reflexivity|reflexivity].
    cbn. rewrite HA. cbn. reflexivity. }
  rewrite Hrun. unfold suspend. cbn. split; [done|]. split; [|done].
  by rewrite <- !app_assoc.
Qed.

End WorkerExtras.


(** ** The further theorems at concrete inputs *)

Module MoreInstances.
Import Codec Decode Ort Protocol Async Worker Discipline Fixtures MoreFixtures.

Lemma tensor_of_short_buffer_witness :
  length (pixelData_of (Codec.data short_image)) <= width short_image * height short_image * 4
  /\ Js.allocates engine0 (length (pixelData_of (Codec.data short_image))) = true
  /\ Js.allocates engine0 (3 * width short_image * height short_image) = true
  /\ exists t,
       Codec.preprocessImageData engine0 short_image = Js.Returns t
       /\ tdata t !! 1 = Some (normalized x40)
       /\ tdata t !! 3 = Some Js.NaN.
Proof.
  assert (Hlen : length (pixelData_of (Codec.data short_image))
                 <= width short_image * height short_image * 4) by (cbn; lia).
  assert (Hpixels : Js.allocates engine0 (length (pixelData_of (Codec.data short_image))) = true)
    by reflexivity.
  assert (Hfloats : Js.allocates engine0 (3 * width short_image * height short_image) = true)
    by reflexivity.
  split; [exact Hlen|]. split; [exact Hpixels|]. split; [exact Hfloats|].
  destruct (proj1 (CodecExtras.tensor_of_short_buffer engine0 short_image Hlen Hpixels)
              Hfloats) as (t & Ht & _ & _ & Hslots).
  exists t. split; [exact Ht|]. split.
  - exact (Hslots 1 0 ltac:(cbn; lia) ltac:(lia)).
  - exact (Hslots 1 1 ltac:(cbn; lia) ltac:(lia)).
Defined.

Lemma tensor_slot_holds_red_of_pixel_witness :
  Js.allocates engine0 (length (pixelData_of (Codec.data long_image))) = true
  /\ Js.allocates engine0 (3 * width long_image * height long_image) = true
  /\ pixelData_of (Codec.data long_image) !! 4 = Some x40
  /\ exists t,
       Codec.preprocessImageData engine0 long_image = Js.Returns t
       /\ tdata t !! 1 = Some (normalized x40).
Proof.
  assert (Hpixels : Js.allocates engine0 (length (pixelData_of (Codec.data long_image))) = true)
    by reflexivity.
  assert (Hfloats : Js.allocates engine0 (3 * width long_image * height long_image) = true)
    by reflexivity.
  split; [exact Hpixels|]. split; [exact Hfloats|]. split; [reflexivity|].
  exact (CodecExtras.tensor_slot_holds_red_of_pixel engine0 long_image 1 x40
           Hpixels Hfloats ltac:(cbn; lia) eq_refl).
Defined.


Lemma plain_array_same_tensor_witness :
  Js.allocates engine0 (length [xff; x00; x80; x01]) = true
  /\ Codec.preprocessImageData engine0
       {| Codec.data := PlainArray [255; 0; 128; 1]%Z; width := 1; height := 1 |}
     = Codec.preprocessImageData engine0
         {| Codec.data := Uint8ClampedArray [xff; x00; x80; x01]; width := 1; height := 1 |}.
Proof.
  assert (Hfit : Js.allocates engine0 (length [xff; x00; x80; x01]) = true) by reflexivity.
  split; [exact Hfit|].
  exact (CodecExtras.plain_array_same_tensor engine0 [xff; x00; x80; x01] 1 1 Hfit).
Defined.

Lemma tensor_determines_pixels_witness :
  Codec.preprocessImageData engine0 Fixtures.image1x1
  = Js.Returns (planar_tensor Fixtures.image1x1)
  /\ Codec.preprocessImageData engine0 image1x1_translucent
     = Js.Returns (planar_tensor image1x1_translucent)
  /\ tdata (planar_tensor Fixtures.image1x1) = tdata (planar_tensor image1x1_translucent)
  /\ pixelData_of (Codec.data Fixtures.image1x1) !! 2
     = pixelData_of (Codec.data image1x1_translucent) !! 2.
Proof.
  assert (Heq : tdata (planar_tensor Fixtures.image1x1)
                = tdata (planar_tensor image1x1_translucent))
    by (vm_compute; reflexivity).
  split; [reflexivity|]. split; [reflexivity|]. split; [exact Heq|].
  exact (CodecExtras.tensor_determines_pixels engine0
           Fixtures.image1x1 image1x1_translucent
           (planar_tensor Fixtures.image1x1) (planar_tensor image1x1_translucent)
           eq_refl eq_refl eq_refl eq_refl eq_refl eq_refl Heq 2 ltac:(cbn; lia)).
Defined.

Lemma only_output_is_transferred_witness :
  frame7_result ∈ outbox (steps realm0 initial one_frame)
  /\ transfer frame7_result = [[Js.one; Js.zero]].
Proof.
  assert (Hin : frame7_result ∈ outbox (steps realm0 initial one_frame)).
  { apply (list_elem_of_lookup_2 _ 1). vm_compute. reflexivity. }
  split; [exact Hin|].
  exact (WorkerExtras.only_output_is_transferred realm0 one_frame frame7_result Hin).
Defined.

Lemma session_stays_loaded_witness :
  is_Some (session (steps realm0 initial first_load))
  /\ is_Some (session (steps realm0 initial (first_load ++ failing_reload))).
Proof.
  assert (Hs : is_Some (session (steps realm0 initial first_load)))
    by (exists yolo; vm_compute; reflexivity).
  split; [exact Hs|].
  exact (WorkerExtras.session_stays_loaded realm0 first_load failing_reload Hs).
Defined.

Lemma frame_reply_after_interleaving_witness :
  session loaded = Some yolo
  /\ inputNames yolo = ["images"]
  /\ Codec.preprocessImageData (engine realm0) image1x1
     = Js.Returns (planar_tensor image1x1)
  /\ session reloaded = Some other
  /\ outputNames other = ["boxes"]
  /\ on_run (serves yolo) yolo (<["images" := planar_tensor image1x1]> ∅)
     = Fulfilled {[ "output0" := detections ]}
  /\ outbox (step realm0 reloaded (Completion 3 (serves yolo)))
     = outbox reloaded
       ++ [result_reply (Js.num (Js.of_Z 7)) (Js.num (Js.of_Z 99)) "35.00"
             (({[ "output0" := detections ]} : gmap string Tensor) !! "boxes")].
Proof.
  split; [reflexivity|]. split; [reflexivity|]. split; [reflexivity|].
  split; [reflexivity|]. split; [reflexivity|]. split; [reflexivity|].
  exact (proj1 (WorkerExtras.frame_reply_after_interleaving realm0 loaded yolo
                  image1x1 (Js.num (Js.of_Z 7)) (Js.num (Js.of_Z 99))
                  (planar_tensor image1x1) reloaded other (serves yolo)
                  "images" "boxes" [] []
                  eq_refl eq_refl eq_refl eq_refl eq_refl eq_refl)).
Defined.

Lemma frames_complete_out_of_order_witness :
  session loaded = Some yolo
  /\ Codec.preprocessImageData (engine realm0) image1x1
     = Js.Returns (planar_tensor image1x1)
  /\ Codec.preprocessImageData (engine realm0) image2x1
     = Js.Returns (planar_tensor image2x1)
  /\ exists reply8 reply7,
       outbox (steps realm0 loaded
                 [Message (PROCESS_FRAME frame7); Message (PROCESS_FRAME frame8);
                  Completion 4 (serves yolo); Completion 3 (serves yolo)])
       = outbox loaded ++ [reply8; reply7]
       /\ frameId_of (msg reply8) = Some (Js.num (Js.of_Z 8))
       /\ frameId_of (msg reply7) = Some (Js.num (Js.of_Z 7)).
Proof.
  split; [reflexivity|]. split; [reflexivity|]. split; [reflexivity|].
  destruct (WorkerExtras.frames_complete_out_of_order realm0 loaded yolo
              image1x1 (Js.num (Js.of_Z 7)) (Js.num (Js.of_Z 99)) (planar_tensor image1x1)
              image2x1 (Js.num (Js.of_Z 8)) (Js.num (Js.of_Z 120)) (planar_tensor image2x1)
              (serves yolo) (serves yolo) eq_refl eq_refl eq_refl)
    as (totalA & totalB & Hout & _).
  eexists _, _. split; [exact Hout|]. split; reflexivity.
Defined.

Lemma init_pipeline_witness :
  on_fetch (serves yolo) "model.onnx" = Fulfilled {| url := "model.onnx"; status := 200 |}
  /\ on_arrayBuffer (serves yolo) {| url := "model.onnx"; status := 200 |} = Fulfilled [x08]
  /\ awaiting (step realm0 initial (Message (INIT "model.onnx"))) 0
     = Some (operation (fetch "model.onnx")).
Proof.
  split; [reflexivity|]. split; [reflexivity|].
  exact (proj1 (WorkerExtras.init_pipeline realm0 initial "model.onnx" (serves yolo)
                  {| url := "model.onnx"; status := 200 |} [x08] eq_refl eq_refl)).
Defined.

Lemma failed_fetch_ends_load_witness :
  on_fetch offline "model.onnx" = Rejected {| Js.message := "Failed to fetch" |}
  /\ outbox (steps realm0 initial [Message (INIT "model.onnx"); Completion 0 offline])
     = [{| msg := ERROR "Failed to load model: Failed to fetch" None; transfer := [] |}].
Proof.
  split; [reflexivity|].
  exact (proj1 (WorkerExtras.failed_fetch_ends_load realm0 initial "model.onnx" offline
                  _ eq_refl)).
Defined.

Lemma unallocatable_frame_is_reported_witness :
  session loaded = Some yolo
  /\ Js.allocates (engine small_realm) (length (pixelData_of (Codec.data short_image))) = true
  /\ Js.allocates (engine small_realm) (3 * width short_image * height short_image) = false
  /\ outbox (step small_realm loaded
               (Message (PROCESS_FRAME
                           (FrameData short_image (Js.num (Js.of_Z 9)) (Js.num (Js.of_Z 130))))))
     = outbox loaded
       ++ [{| msg := ERROR "Processing failed: Invalid typed array length: 6"
                           (Some (Js.num (Js.of_Z 9)));
              transfer := [] |}].
Proof.
  split; [reflexivity|]. split; [reflexivity|]. split; [reflexivity|].
  exact (proj1 (WorkerExtras.unallocatable_frame_is_reported small_realm loaded yolo
                  short_image (Js.num (Js.of_Z 9)) (Js.num (Js.of_Z 130))
                  eq_refl eq_refl eq_refl)).
Defined.


Lemma last_created_session_stays_witness :
  load_result (serves yolo) "model.onnx" = Fulfilled yolo
  /\ load_result (serves other) "other.onnx" = Fulfilled other
  /\ session (steps realm0 initial
                [Message (INIT "model.onnx"); Message (INIT "other.onnx");
                 Completion 1 (serves other); Completion 2 (serves other);
                 Completion 3 (serves other);
                 Completion 0 (serves yolo); Completion 4 (serves yolo);
                 Completion 5 (serves yolo)]) = Some yolo.
Proof.
  split; [reflexivity|]. split; [reflexivity|].
  exact (proj1 (WorkerExtras.last_created_session_stays realm0 initial
                  "model.onnx" "other.onnx" (serves yolo) (serves other) yolo other
                  eq_refl eq_refl)).
Defined.

End MoreInstances.
